(** * The fighting game's AI controller (public/js/ai.js)

    A shallow embedding of [class AIController] and the properties of its
    per-frame decision procedure.

    Modelling choices.
    - JavaScript numbers are modelled as exact rationals ([Q]).  Every
      constant of the source is a short decimal literal and is read as the
      rational it denotes.  The strict test [=== 0] on a number is
      [Qeq_bool _ 0], the test [a < b] is [Qltb a b].  The source computes
      in doubles, which round; the expressions whose value rounding can
      change (the reaction test [withinReaction], the index [randomIndex],
      the distance [getDistance]) are definitions of their own, and the
      properties are stated through them, or on values where the double
      arithmetic is exact, or with a margin that rounding cannot cross.
    - [strikeCount] only ever holds 0, 1, 2, ...; it is an integer ([Z]) and
      the JavaScript remainder [%] is the truncating [Z.rem].
    - The difficulty is the JavaScript string itself; [switch] compares it
      with [String.eqb] and has a [default] branch.
    - The action objects [{idle: true}], [{move: d}], [{attack: true}] and
      [{jump: true, moveDirection: d}] are the four constructors of
      [Action].  A JavaScript value that is an action object, [null] or
      [undefined] is an [option Action]: [None] stands for the two falsy
      values [null] and [undefined].
    - [Math.random()] is an explicit oracle [random : nat -> Q]; the engine
      state is paired with the number of draws made so far, and the n-th
      call of [Math.random()] returns [random n].
    - The mutable object [this] is threaded through a state monad [M]. *)

From Stdlib Require Import ZArith QArith Qabs Qround String List Bool Lia Lqa.
Import ListNotations.

Local Open Scope Q_scope.
Local Open Scope string_scope.

(** ** Numbers *)

(** [a < b] on JavaScript numbers. *)
Definition Qltb (a b : Q) : bool := negb (Qle_bool b a).

(** ** Data model *)

Inductive Direction : Type := Left | Right.

Inductive Action : Type :=
| Idle                    (* { idle: true } *)
| Move (d : Direction)    (* { move: d } *)
| Attack                  (* { attack: true } *)
| Jump (d : Direction).   (* { jump: true, moveDirection: d } *)

Record Position : Type := mkPosition { x : Q; y : Q }.

(** What the controller reads of a fighter. *)
Record Fighter : Type := mkFighter {
  position : Position;
  width : Q;
  dead : bool;
  isAttacking : bool
}.

(** The object returned by [getDifficultyParams]. *)
Record Params : Type := mkParams {
  aggressiveness : Q;
  defensiveness : Q;
  attackRange : Q;
  comfortDistance : Q;
  jumpChance : Q;
  mistakes : Q;
  attackCooldownMin : Q;
  attackCooldownMax : Q
}.

(** The fields of an [AIController] instance, in the order the constructor
    assigns them. *)
Record AIController : Type := mkAIController {
  difficulty : string;
  state : string;
  reactionTime : Q;
  lastDecisionTime : Q;
  currentAction : option Action;
  actionDuration : Q;
  attackCooldown : Q;
  jumpCooldown : Q;
  strikeCount : Z;
  params : Params
}.

(** Field assignments [this.f = v]. *)
Definition set_difficulty (v : string) (s : AIController) : AIController :=
  mkAIController v (state s) (reactionTime s) (lastDecisionTime s)
    (currentAction s) (actionDuration s) (attackCooldown s) (jumpCooldown s)
    (strikeCount s) (params s).

Definition set_reactionTime (v : Q) (s : AIController) : AIController :=
  mkAIController (difficulty s) (state s) v (lastDecisionTime s)
    (currentAction s) (actionDuration s) (attackCooldown s) (jumpCooldown s)
    (strikeCount s) (params s).

Definition set_lastDecisionTime (v : Q) (s : AIController) : AIController :=
  mkAIController (difficulty s) (state s) (reactionTime s) v
    (currentAction s) (actionDuration s) (attackCooldown s) (jumpCooldown s)
    (strikeCount s) (params s).

Definition set_currentAction (v : option Action) (s : AIController)
  : AIController :=
  mkAIController (difficulty s) (state s) (reactionTime s) (lastDecisionTime s)
    v (actionDuration s) (attackCooldown s) (jumpCooldown s)
    (strikeCount s) (params s).

Definition set_attackCooldown (v : Q) (s : AIController) : AIController :=
  mkAIController (difficulty s) (state s) (reactionTime s) (lastDecisionTime s)
    (currentAction s) (actionDuration s) v (jumpCooldown s)
    (strikeCount s) (params s).

Definition set_jumpCooldown (v : Q) (s : AIController) : AIController :=
  mkAIController (difficulty s) (state s) (reactionTime s) (lastDecisionTime s)
    (currentAction s) (actionDuration s) (attackCooldown s) v
    (strikeCount s) (params s).

Definition set_strikeCount (v : Z) (s : AIController) : AIController :=
  mkAIController (difficulty s) (state s) (reactionTime s) (lastDecisionTime s)
    (currentAction s) (actionDuration s) (attackCooldown s) (jumpCooldown s)
    v (params s).

Definition set_params (v : Params) (s : AIController) : AIController :=
  mkAIController (difficulty s) (state s) (reactionTime s) (lastDecisionTime s)
    (currentAction s) (actionDuration s) (attackCooldown s) (jumpCooldown s)
    (strikeCount s) v.

(** ** Configuration *)

Definition getReactionTime (difficulty : string) : Q :=
  if difficulty =? "easy" then 1200
  else if difficulty =? "medium" then 400
  else if difficulty =? "hard" then 150
  else 400.

Definition easyParams : Params :=
  {| aggressiveness := 0.9;
     defensiveness := 0.6;
     attackRange := 190;
     comfortDistance := 320;
     jumpChance := 0.12;
     mistakes := 0.5;
     attackCooldownMin := 120;
     attackCooldownMax := 120 |}.

Definition mediumParams : Params :=
  {| aggressiveness := 0.28;
     defensiveness := 0.35;
     attackRange := 195;
     comfortDistance := 200;
     jumpChance := 0.22;
     mistakes := 0.25;
     attackCooldownMin := 180;
     attackCooldownMax := 240 |}.

Definition hardParams : Params :=
  {| aggressiveness := 0.38;
     defensiveness := 0.45;
     attackRange := 220;
     comfortDistance := 170;
     jumpChance := 0.3;
     mistakes := 0.12;
     attackCooldownMin := 90;
     attackCooldownMax := 150 |}.

(** The [default] branch of the source calls [getDifficultyParams('medium')],
    which lands in the ['medium'] case: the recursion is unfolded once. *)
Definition getDifficultyParams (difficulty : string) : Params :=
  if difficulty =? "easy" then easyParams
  else if difficulty =? "medium" then mediumParams
  else if difficulty =? "hard" then hardParams
  else mediumParams.

(** [new AIController(difficulty)]. *)
Definition constructor (difficulty : string) : AIController :=
  {| difficulty := difficulty;
     state := "idle";
     reactionTime := getReactionTime difficulty;
     lastDecisionTime := 0;
     currentAction := None;
     actionDuration := 0;
     attackCooldown := 0;
     jumpCooldown := 0;
     strikeCount := 0;
     params := getDifficultyParams difficulty |}.

Definition setDifficulty (difficulty : string) (s : AIController)
  : AIController :=
  set_params (getDifficultyParams difficulty)
    (set_reactionTime (getReactionTime difficulty)
       (set_difficulty difficulty s)).

(** ** Pure helpers *)

Definition getIdleActions : Action := Idle.

Definition getDistance (fighter1 fighter2 : Fighter) : Q :=
  let center1 := x (position fighter1) + width fighter1 / 2 in
  let center2 := x (position fighter2) + width fighter2 / 2 in
  Qabs (center1 - center2).

(** The array literal of [makeRandomAction]. *)
Definition actions : list Action :=
  [getIdleActions; Move Left; Move Right; Attack; Jump Left; Jump Right].

(** [arr[i]] for an integer [i]: [undefined] outside the array. *)
Definition index {A : Type} (arr : list A) (i : Z) : option A :=
  if (i <? 0)%Z then None else nth_error arr (Z.to_nat i).

(** The index [Math.floor(u * actions.length)] that [makeRandomAction]
    computes from its draw [u], the array having six elements. *)
Definition randomIndex (u : Q) : Z :=
  Qfloor (u * inject_Z (Z.of_nat (length actions))).

(** The test of the reaction gate of [update]:
    [currentTime - this.lastDecisionTime < this.reactionTime]. *)
Definition withinReaction (currentTime last rt : Q) : bool :=
  Qltb (currentTime - last) rt.

(** The first two statements of [update]. *)
Definition updateCooldowns (s : AIController) : AIController :=
  let s1 :=
    if Qltb 0 (attackCooldown s)
    then set_attackCooldown (attackCooldown s - 1) s else s in
  if Qltb 0 (jumpCooldown s1)
  then set_jumpCooldown (jumpCooldown s1 - 1) s1 else s1.

(** ** The state monad of the controller *)

(** The controller object together with the number of [Math.random()]
    draws made so far. *)
Definition World : Type := (AIController * nat)%type.

Definition M (A : Type) : Type := World -> A * World.

Definition ret {A : Type} (a : A) : M A := fun w => (a, w).

Definition bind {A B : Type} (m : M A) (k : A -> M B) : M B :=
  fun w => let (a, w') := m w in k a w'.

Definition gets {A : Type} (f : AIController -> A) : M A :=
  fun w => (f (fst w), w).

Definition modify (f : AIController -> AIController) : M unit :=
  fun w => (tt, (f (fst w), snd w)).

Notation "v <- m ;; k" := (bind m (fun v => k))
  (at level 61, m at next level, right associativity).
Notation "m ;;; k" := (bind m (fun _ => k))
  (at level 61, right associativity).

(** One frame of the host's loop: the arguments of one [update] call. *)
Record Frame : Type := mkFrame {
  f_self : Fighter;
  f_opponent : Fighter;
  f_now : Q
}.

Section Engine.

(** The values returned by the successive calls of [Math.random()]. *)
Variable random : nat -> Q.

Definition Math_random : M Q :=
  fun w => (random (snd w), (fst w, S (snd w))).

(** [cond && Math.random() < p]: the draw is made only when [cond] holds. *)
Definition andRoll (cond : bool) (p : Q) : M bool :=
  if cond then (u <- Math_random ;; ret (Qltb u p)) else ret false.

Definition continueCurrentAction : M (option Action) :=
  cur <- gets currentAction ;;
  match cur with
  | Some a => ret (Some a)
  | None => ret (Some getIdleActions)
  end.

(** [actions[Math.floor(Math.random() * actions.length)]], the array
    having six elements. *)
Definition makeRandomAction : M (option Action) :=
  u <- Math_random ;;
  ret (index actions (randomIndex u)).

(** Lines 171-178: strafe or wait. *)
Definition strafeOrWait : M (option Action) :=
  u <- Math_random ;;
  if Qltb u 0.3 then
    v <- Math_random ;;
    let strafeDirection := if Qltb v 0.5 then Left else Right in
    ret (Some (Move strafeDirection))
  else ret (Some getIdleActions).

(** Lines 156-169: movement decisions, falling through to the strafe. *)
Definition movementDecision (p : Params) (distance : Q)
    (isOpponentLeft : bool) : M (option Action) :=
  let idealDistance := comfortDistance p in
  if Qltb (idealDistance + 50) distance then
    let moveToward := if isOpponentLeft then Left else Right in
    ret (Some (Move moveToward))
  else
    retreat <- andRoll (Qltb distance (idealDistance - 50))
                 (defensiveness p) ;;
    if retreat then
      let moveAway := if isOpponentLeft then Right else Left in
      ret (Some (Move moveAway))
    else strafeOrWait.

(** Lines 139-154: the two jumps, falling through to the movement. *)
Definition jumpDecision (p : Params) (distance : Q)
    (isOpponentLeft : bool) : M (option Action) :=
  jc <- gets jumpCooldown ;;
  if Qeq_bool jc 0 then
    defensive <- andRoll (Qltb distance 100) (defensiveness p) ;;
    if defensive then
      modify (set_jumpCooldown 120) ;;;
      let jumpDirection := if isOpponentLeft then Right else Left in
      ret (Some (Jump jumpDirection))
    else
      offensive <- andRoll (Qltb 250 distance && Qltb distance 400)
                     (jumpChance p) ;;
      if offensive then
        modify (set_jumpCooldown 120) ;;;
        let jumpDirection := if isOpponentLeft then Left else Right in
        ret (Some (Jump jumpDirection))
      else movementDecision p distance isOpponentLeft
  else movementDecision p distance isOpponentLeft.

(** Lines 132-135: arm the randomised cooldown and attack. *)
Definition strike (p : Params) : M (option Action) :=
  let cooldownRange := attackCooldownMax p - attackCooldownMin p in
  u <- Math_random ;;
  modify (set_attackCooldown (attackCooldownMin p + u * cooldownRange)) ;;;
  ret (Some Attack).

(** Lines 119-137: the attack, falling through to the jumps. *)
Definition attackDecision (p : Params) (distance : Q)
    (isOpponentLeft : bool) : M (option Action) :=
  cd <- gets attackCooldown ;;
  if Qltb distance (attackRange p) && Qeq_bool cd 0 then
    u <- Math_random ;;
    if Qltb u (aggressiveness p) then
      diff <- gets difficulty ;;
      if diff =? "easy" then
        modify (fun s => set_strikeCount (strikeCount s + 1)%Z s) ;;;
        sc <- gets strikeCount ;;
        if (Z.rem sc 3 =? 0)%Z then
          modify (set_attackCooldown (attackCooldownMin p)) ;;;
          ret (Some getIdleActions)
        else strike p
      else strike p
    else jumpDecision p distance isOpponentLeft
  else jumpDecision p distance isOpponentLeft.

Definition makeDecision (aiPlayer opponent : Fighter) (distance : Q)
    (isOpponentLeft : bool) : M (option Action) :=
  p <- gets params ;;
  u <- Math_random ;;
  if Qltb u (mistakes p) then makeRandomAction
  else attackDecision p distance isOpponentLeft.

Definition update (aiPlayer opponent : Fighter) (currentTime : Q)
  : M (option Action) :=
  modify updateCooldowns ;;;
  if dead aiPlayer || dead opponent then ret (Some getIdleActions)
  else if isAttacking aiPlayer then continueCurrentAction
  else
    last <- gets lastDecisionTime ;;
    rt <- gets reactionTime ;;
    if withinReaction currentTime last rt then continueCurrentAction
    else
      modify (set_lastDecisionTime currentTime) ;;;
      let distance := getDistance aiPlayer opponent in
      let isOpponentLeft :=
        Qltb (x (position opponent)) (x (position aiPlayer)) in
      action <- makeDecision aiPlayer opponent distance isOpponentLeft ;;
      modify (set_currentAction action) ;;;
      ret action.

Definition step (fr : Frame) : M (option Action) :=
  update (f_self fr) (f_opponent fr) (f_now fr).

(** Consecutive [update] calls, one per frame, with the actions returned. *)
Fixpoint run (frames : list Frame) : M (list (option Action)) :=
  match frames with
  | [] => ret []
  | fr :: rest =>
      a <- step fr ;;
      others <- run rest ;;
      ret (a :: others)
  end.

End Engine.

(** ** Vocabulary of the properties *)

(** [Math.random()] returns a number in [0, 1). *)
Definition validDraws (random : nat -> Q) : Prop :=
  forall n, 0 <= random n /\ random n < 1.

(** The controller after [step], and the action it returned. *)
Definition after (random : nat -> Q) (fr : Frame) (w : World) : World :=
  snd (step random fr w).

Definition returned (random : nat -> Q) (fr : Frame) (w : World)
  : option Action :=
  fst (step random fr w).

(** The engine states a host can bring about: construction, [update] calls
    with any fighters and clock under a lawful random source, and
    [setDifficulty] calls. *)
Inductive reachable : AIController -> Prop :=
| reachable_new : forall d, reachable (constructor d)
| reachable_update : forall random fr s n,
    validDraws random -> reachable s ->
    reachable (fst (after random fr (s, n)))
| reachable_setDifficulty : forall d s,
    reachable s -> reachable (setDifficulty d s).

(** Two parameter objects holding the same numbers. *)
Definition Params_eq (p q : Params) : Prop :=
  aggressiveness p == aggressiveness q /\
  defensiveness p == defensiveness q /\
  attackRange p == attackRange q /\
  comfortDistance p == comfortDistance q /\
  jumpChance p == jumpChance q /\
  mistakes p == mistakes q /\
  attackCooldownMin p == attackCooldownMin q /\
  attackCooldownMax p == attackCooldownMax q.

(** A controller configured at [tier] with the reaction time [rt] and the
    numbers of the table row [row]. *)
Definition configuredWith (tier : string) (rt : Q) (row : Params)
    (s : AIController) : Prop :=
  difficulty s = tier /\ reactionTime s == rt /\ Params_eq (params s) row.

(** A margin, 2^-40, far above the rounding error of a product below 8. *)
Definition roundingMargin : Q := 1 # 1099511627776.

(** A test harness overwriting [params.mistakes]. *)
Definition forceMistakes (m : Q) (s : AIController) : AIController :=
  let p := params s in
  set_params
    (mkParams (aggressiveness p) (defensiveness p) (attackRange p)
       (comfortDistance p) (jumpChance p) m (attackCooldownMin p)
       (attackCooldownMax p)) s.

(** The random source of one decision whose first three draws are [m]
    (mistake roll), [a] (aggressiveness roll) and [c] (cooldown roll). *)
Definition draws3 (m a c : Q) (n : nat) : Q :=
  match n with
  | O => m
  | S O => a
  | _ => c
  end.

(** One attack attempt of the scripted-miss scenario: the cooldown has run
    out ([attackCooldown] is 0) and a decision is computed at [distance]. *)
Definition attempt (aiPlayer opponent : Fighter) (distance : Q)
    (isOpponentLeft : bool) (rolls : Q * Q * Q) (s : AIController)
  : option Action * AIController :=
  let '(m, a, c) := rolls in
  let r := makeDecision (draws3 m a c) aiPlayer opponent distance
             isOpponentLeft (set_attackCooldown 0 s, O) in
  (fst r, fst (snd r)).

(** Consecutive attempts; each is logged with the action returned and the
    value of [attackCooldown] it left. *)
Fixpoint attempts (aiPlayer opponent : Fighter) (distance : Q)
    (isOpponentLeft : bool) (rolls : list (Q * Q * Q)) (s : AIController)
  : list (option Action * Q) :=
  match rolls with
  | [] => []
  | r :: rest =>
      let (a, s') := attempt aiPlayer opponent distance isOpponentLeft r s in
      (a, attackCooldown s')
        :: attempts aiPlayer opponent distance isOpponentLeft rest s'
  end.

(** The outcome scripted for the strike numbered [strike] at the easy tier:
    every third one is a miss. *)
Definition scriptedOutcome (strike : Z) : option Action :=
  if (Z.rem strike 3 =? 0)%Z then Some Idle else Some Attack.

(** The outcomes scripted for the [k] strikes that follow strike [done]. *)
Fixpoint scriptedLog (done : Z) (k : nat) : list (option Action) :=
  match k with
  | O => []
  | S k' => scriptedOutcome (done + 1) :: scriptedLog (done + 1) k'
  end.

(** The rolls of an attempt that a lawful source can produce and whose
    aggressiveness roll succeeds under the parameters [p]. *)
Definition strikingRolls (p : Params) (rolls : Q * Q * Q) : Prop :=
  let '(m, a, c) := rolls in 0 <= m /\ a < aggressiveness p.

(** ** Concrete scenarios *)

Definition fighterAt (px : Q) : Fighter :=
  mkFighter (mkPosition px 0) 40 false false.

(** The controlled fighter at x = 0 and its opponent at x = 150, both 40
    wide and alive. *)
Definition nearSelf : Fighter := fighterAt 0.
Definition nearOpponent : Fighter := fighterAt 150.

(** Mistake roll 0.5 (fails at every tier, the largest [mistakes] being
    0.5), aggressiveness roll 0.125 (succeeds at every tier), every later
    draw 1/128. *)
Definition attackDraws : nat -> Q := draws3 0.5 0.125 0.0078125.

(** [k] frames at clocks [now], [now + 1], ... with the two fighters in
    place. *)
Fixpoint framesFrom (now : Q) (k : nat) : list Frame :=
  match k with
  | O => []
  | S k' => mkFrame nearSelf nearOpponent now :: framesFrom (now + 1) k'
  end.

(** A medium controller after its first decision, taken at clock 400 under
    [attackDraws]. *)
Definition armedWorld : World :=
  after attackDraws (mkFrame nearSelf nearOpponent 400)
    (constructor "medium", O).

(** The same controller [k] frames later, the clock advancing by 1 from
    401. *)
Definition laterWorld (k : nat) : World :=
  snd (run attackDraws (framesFrom 401 k) armedWorld).

(** A medium controller after a defensive jump: the opponent is 50 away,
    the mistake roll (0.5) and the aggressiveness roll (0.5) fail and the
    defensiveness roll (0.25) succeeds. *)
Definition jumpedWorld : World :=
  after (draws3 0.5 0.5 0.25) (mkFrame nearSelf (fighterAt 50) 400)
    (constructor "medium", O).

(** * Properties *)

(** ** Comparisons *)

Lemma Qltb_true (a b : Q) : Qltb a b = true <-> a < b.
Proof.
  unfold Qltb. rewrite negb_true_iff.
  split; intro H.
  - apply Qnot_le_lt. intro Hle. apply Qle_bool_iff in Hle. congruence.
  - destruct (Qle_bool b a) eqn:E; [| reflexivity].
    apply Qle_bool_iff in E. exfalso. apply (Qlt_not_le _ _ H E).
Qed.

Lemma Qltb_false (a b : Q) : Qltb a b = false <-> b <= a.
Proof.
  unfold Qltb. rewrite negb_false_iff. apply Qle_bool_iff.
Qed.

(** ** The cooldown update *)

Ltac split_cooldowns s :=
  unfold updateCooldowns;
  destruct (Qltb 0 (attackCooldown s)); cbn;
  destruct (Qltb 0 (jumpCooldown s)); cbn.

Lemma updateCooldowns_frame (s : AIController) :
  difficulty (updateCooldowns s) = difficulty s /\
  state (updateCooldowns s) = state s /\
  reactionTime (updateCooldowns s) = reactionTime s /\
  lastDecisionTime (updateCooldowns s) = lastDecisionTime s /\
  currentAction (updateCooldowns s) = currentAction s /\
  actionDuration (updateCooldowns s) = actionDuration s /\
  strikeCount (updateCooldowns s) = strikeCount s /\
  params (updateCooldowns s) = params s.
Proof. split_cooldowns s; repeat split; reflexivity. Qed.

Lemma updateCooldowns_attack (s : AIController) :
  attackCooldown (updateCooldowns s) =
  if Qltb 0 (attackCooldown s) then attackCooldown s - 1
  else attackCooldown s.
Proof. split_cooldowns s; reflexivity. Qed.

Lemma updateCooldowns_jump (s : AIController) :
  jumpCooldown (updateCooldowns s) =
  if Qltb 0 (jumpCooldown s) then jumpCooldown s - 1 else jumpCooldown s.
Proof. split_cooldowns s; reflexivity. Qed.

(** ** The first exits of [update] *)

(** Runs the monadic plumbing of a computation applied to a world. *)
Ltac run_monad :=
  cbv beta iota delta [bind modify gets ret Math_random andRoll fst snd
                       randomIndex withinReaction].

Lemma update_dead (random : nat -> Q) (aiPlayer opponent : Fighter)
    (currentTime : Q) (s : AIController) (n : nat) :
  dead aiPlayer || dead opponent = true ->
  update random aiPlayer opponent currentTime (s, n) =
  (Some Idle, (updateCooldowns s, n)).
Proof.
  intro Hd. unfold update. run_monad. rewrite Hd. reflexivity.
Qed.

Lemma update_attacking (random : nat -> Q) (aiPlayer opponent : Fighter)
    (currentTime : Q) (s : AIController) (n : nat) :
  dead aiPlayer || dead opponent = false ->
  isAttacking aiPlayer = true ->
  update random aiPlayer opponent currentTime (s, n) =
  (Some (match currentAction s with Some a => a | None => Idle end),
   (updateCooldowns s, n)).
Proof.
  intros Hd Ha.
  destruct (updateCooldowns_frame s) as (_ & _ & _ & _ & Hc & _).
  unfold update, continueCurrentAction. run_monad.
  rewrite Hd, Ha, Hc. destruct (currentAction s); reflexivity.
Qed.

Lemma update_gated (random : nat -> Q) (aiPlayer opponent : Fighter)
    (currentTime : Q) (s : AIController) (n : nat) :
  dead aiPlayer || dead opponent = false ->
  Qltb (currentTime - lastDecisionTime s) (reactionTime s) = true ->
  update random aiPlayer opponent currentTime (s, n) =
  (Some (match currentAction s with Some a => a | None => Idle end),
   (updateCooldowns s, n)).
Proof.
  intros Hd Hg.
  destruct (isAttacking aiPlayer) eqn:Ha.
  - apply update_attacking; assumption.
  - destruct (updateCooldowns_frame s) as (_ & _ & Hr & Hl & Hc & _).
    unfold update, continueCurrentAction. run_monad.
    rewrite Hd, Ha, Hl, Hr, Hg, Hc. destruct (currentAction s); reflexivity.
Qed.

(** When neither exit is taken a decision is computed: the clock is stored,
    [makeDecision] runs and its result becomes [currentAction]. *)
Lemma update_fresh (random : nat -> Q) (aiPlayer opponent : Fighter)
    (currentTime : Q) (s : AIController) (n : nat) :
  dead aiPlayer || dead opponent = false ->
  isAttacking aiPlayer = false ->
  Qltb (currentTime - lastDecisionTime s) (reactionTime s) = false ->
  update random aiPlayer opponent currentTime (s, n) =
  let r := makeDecision random aiPlayer opponent
             (getDistance aiPlayer opponent)
             (Qltb (x (position opponent)) (x (position aiPlayer)))
             (set_lastDecisionTime currentTime (updateCooldowns s), n) in
  (fst r, (set_currentAction (fst r) (fst (snd r)), snd (snd r))).
Proof.
  intros Hd Ha Hg.
  destruct (updateCooldowns_frame s) as (_ & _ & Hr & Hl & _).
  unfold update. run_monad.
  rewrite Hd, Ha, Hl, Hr, Hg.
  destruct (makeDecision _ _ _ _ _ _) as [a [s' n']]. reflexivity.
Qed.

(** ** The difficulty table *)

Lemma unrecognized_tier (t : string) :
  t <> "easy" -> t <> "medium" -> t <> "hard" ->
  getReactionTime t = 400 /\ getDifficultyParams t = mediumParams.
Proof.
  intros He Hm Hh.
  apply String.eqb_neq in He. apply String.eqb_neq in Hm.
  apply String.eqb_neq in Hh.
  unfold getReactionTime, getDifficultyParams.
  rewrite He, Hm, Hh. split; reflexivity.
Qed.

(** C5: each recognised tier is configured, by the constructor and by
    [setDifficulty] alike, with exactly the row of the fixed table (reaction
    time, aggressiveness, defensiveness, attack range, comfort distance,
    jump chance, mistakes, attack cooldown bounds), these rows being what
    [getReactionTime] and [getDifficultyParams] return; and an unrecognised
    tier, kept as the difficulty string, gets the reaction time and the
    parameters of medium. *)
Theorem C5_difficulty_table (t : string) (s : AIController) :
  t <> "easy" -> t <> "medium" -> t <> "hard" ->
  let easyRow := mkParams 0.90 0.60 190 320 0.12 0.50 120 120 in
  let mediumRow := mkParams 0.28 0.35 195 200 0.22 0.25 180 240 in
  let hardRow := mkParams 0.38 0.45 220 170 0.30 0.12 90 150 in
  (getReactionTime "easy" == 1200 /\
   Params_eq (getDifficultyParams "easy") easyRow /\
   configuredWith "easy" 1200 easyRow (setDifficulty "easy" s) /\
   configuredWith "easy" 1200 easyRow (constructor "easy")) /\
  (getReactionTime "medium" == 400 /\
   Params_eq (getDifficultyParams "medium") mediumRow /\
   configuredWith "medium" 400 mediumRow (setDifficulty "medium" s) /\
   configuredWith "medium" 400 mediumRow (constructor "medium")) /\
  (getReactionTime "hard" == 150 /\
   Params_eq (getDifficultyParams "hard") hardRow /\
   configuredWith "hard" 150 hardRow (setDifficulty "hard" s) /\
   configuredWith "hard" 150 hardRow (constructor "hard")) /\
  (configuredWith t 400 mediumRow (setDifficulty t s) /\
   reactionTime (setDifficulty t s) = reactionTime (setDifficulty "medium" s) /\
   params (setDifficulty t s) = params (setDifficulty "medium" s)) /\
  (configuredWith t 400 mediumRow (constructor t) /\
   reactionTime (constructor t) = reactionTime (constructor "medium") /\
   params (constructor t) = params (constructor "medium")).
Proof.
  intros He Hm Hh. cbv zeta.
  destruct (unrecognized_tier t He Hm Hh) as [Hr Hp].
  unfold configuredWith.
  cbn [setDifficulty constructor set_params set_reactionTime set_difficulty
       difficulty reactionTime params].
  rewrite Hr, Hp.
  repeat split; reflexivity.
Qed.

Lemma C5_difficulty_table_witness :
  ("nightmare" <> "easy" /\ "nightmare" <> "medium" /\
   "nightmare" <> "hard") /\
  configuredWith "easy" 1200 (mkParams 0.90 0.60 190 320 0.12 0.50 120 120)
    (setDifficulty "easy" (constructor "hard")) /\
  reactionTime (setDifficulty "nightmare" (constructor "hard")) = 400 /\
  params (setDifficulty "nightmare" (constructor "hard")) = mediumParams.
Proof.
  assert (He : "nightmare" <> "easy") by discriminate.
  assert (Hm : "nightmare" <> "medium") by discriminate.
  assert (Hh : "nightmare" <> "hard") by discriminate.
  split; [repeat split; assumption |].
  destruct (C5_difficulty_table "nightmare" (constructor "hard") He Hm Hh)
    as ((_ & _ & Heasy & _) & _ & _ & (_ & Hr & Hp) & _).
  split; [exact Heasy |]. split; [exact Hr | exact Hp].
Defined.

(** ** Death short-circuit *)

(** C4: when either fighter is dead, [update] returns the idle action
    whatever the cooldowns and the decision timer hold; it makes no random
    draw, and it leaves the controller as the cooldown update of its first
    two statements left it: [lastDecisionTime], [currentAction] and every
    other field but the two cooldowns keep their values. *)
Theorem C4_death_short_circuit (random : nat -> Q)
    (aiPlayer opponent : Fighter) (currentTime : Q) (s : AIController)
    (n : nat) :
  dead aiPlayer = true \/ dead opponent = true ->
  let r := update random aiPlayer opponent currentTime (s, n) in
  let s' := fst (snd r) in
  fst r = Some Idle /\
  snd r = (updateCooldowns s, n) /\
  lastDecisionTime s' = lastDecisionTime s /\
  currentAction s' = currentAction s /\
  difficulty s' = difficulty s /\
  state s' = state s /\
  reactionTime s' = reactionTime s /\
  actionDuration s' = actionDuration s /\
  strikeCount s' = strikeCount s /\
  params s' = params s.
Proof.
  intros Hd.
  assert (Hor : dead aiPlayer || dead opponent = true)
    by (apply orb_true_iff; exact Hd).
  cbv zeta. rewrite (update_dead random _ _ currentTime s n Hor).
  cbn [fst snd].
  destruct (updateCooldowns_frame s) as (H1 & H2 & H3 & H4 & H5 & H6 & H7 & H8).
  repeat split; assumption.
Qed.

Lemma C4_death_short_circuit_witness :
  (dead nearSelf = true \/
   dead (mkFighter (mkPosition 150 0) 40 true false) = true) /\
  fst (update attackDraws nearSelf
         (mkFighter (mkPosition 150 0) 40 true false) 400
         (set_attackCooldown 7 (constructor "hard"), O)) = Some Idle.
Proof.
  split; [right; reflexivity |].
  apply (C4_death_short_circuit attackDraws nearSelf
           (mkFighter (mkPosition 150 0) 40 true false) 400
           (set_attackCooldown 7 (constructor "hard")) O).
  right; reflexivity.
Defined.

(** ** The reaction gate on a new controller *)

Lemma constructor_at_rest (d : string) :
  updateCooldowns (constructor d) = constructor d.
Proof. reflexivity. Qed.

(** C10: on a freshly constructed controller, calls of [update] whose clock
    is below the reaction time all return the idle action; they compute no
    decision (no random draw is made) and leave the controller exactly as
    constructed, so [currentAction] stays [null] and [lastDecisionTime] 0. *)
Theorem C10_idle_before_first_reaction (d : string) (random : nat -> Q)
    (frames : list Frame) (n : nat) :
  Forall (fun fr => f_now fr < getReactionTime d) frames ->
  run random frames (constructor d, n) =
  (repeat (Some Idle) (length frames), (constructor d, n)).
Proof.
  induction 1 as [| fr rest Hnow _ IH]; [reflexivity |].
  cbn [run length repeat]. unfold bind at 1. unfold step.
  assert (Hstep : update random (f_self fr) (f_opponent fr) (f_now fr)
                    (constructor d, n) = (Some Idle, (constructor d, n))).
  { destruct (dead (f_self fr) || dead (f_opponent fr)) eqn:Hd.
    - rewrite update_dead by assumption.
      rewrite constructor_at_rest. reflexivity.
    - rewrite update_gated; [rewrite constructor_at_rest; reflexivity
                            | assumption |].
      apply Qltb_true. cbn [lastDecisionTime reactionTime constructor].
      lra. }
  rewrite Hstep. unfold bind. rewrite IH. reflexivity.
Qed.

Lemma C10_idle_before_first_reaction_witness :
  Forall (fun fr => f_now fr < getReactionTime "easy")
    [mkFrame nearSelf nearOpponent 16; mkFrame nearSelf nearOpponent 1199] /\
  run attackDraws
    [mkFrame nearSelf nearOpponent 16; mkFrame nearSelf nearOpponent 1199]
    (constructor "easy", O) =
  ([Some Idle; Some Idle], (constructor "easy", O)).
Proof.
  assert (H : Forall (fun fr => f_now fr < getReactionTime "easy")
                [mkFrame nearSelf nearOpponent 16;
                 mkFrame nearSelf nearOpponent 1199])
    by (repeat constructor).
  split; [exact H |].
  exact (C10_idle_before_first_reaction "easy" attackDraws _ O H).
Defined.

(** ** The decision cascade *)

(** For a draw [u] in [0, 1) the index [Math.floor(u * 6)] is one of
    0, ..., 5, namely the [k] with [k/6 <= u < (k+1)/6]. *)
Lemma floor_six (u : Q) :
  0 <= u -> u < 1 ->
  exists k : nat,
    (k < 6)%nat /\
    Qfloor (u * inject_Z (Z.of_nat (length actions))) = Z.of_nat k /\
    inject_Z (Z.of_nat k) / 6 <= u /\ u < (inject_Z (Z.of_nat k) + 1) / 6.
Proof.
  intros H0 H1.
  change (inject_Z (Z.of_nat (length actions))) with 6.
  pose proof (Qfloor_le (u * 6)) as Hlo.
  pose proof (Qlt_floor (u * 6)) as Hhi.
  set (z := Qfloor (u * 6)) in *.
  assert (Hz : (0 <= z < 6)%Z).
  { split.
    - assert (Hq : inject_Z 0 < inject_Z (z + 1)).
      { apply Qle_lt_trans with (u * 6); [| exact Hhi].
        change (inject_Z 0) with 0. lra. }
      rewrite <- Zlt_Qlt in Hq. lia.
    - assert (Hq : inject_Z z < inject_Z 6).
      { apply Qle_lt_trans with (u * 6); [exact Hlo |].
        change (inject_Z 6) with 6. lra. }
      rewrite <- Zlt_Qlt in Hq. exact Hq. }
  exists (Z.to_nat z).
  rewrite Z2Nat.id by lia.
  split; [lia |]. split; [reflexivity |].
  rewrite inject_Z_plus in Hhi. change (inject_Z 1) with 1 in Hhi.
  split.
  - apply Qle_shift_div_r; [reflexivity | exact Hlo].
  - apply Qlt_shift_div_l; [reflexivity | exact Hhi].
Qed.

Lemma index_actions (k : nat) :
  (k < 6)%nat ->
  index actions (Z.of_nat k) = nth_error actions k /\
  exists a, nth_error actions k = Some a.
Proof.
  intro Hk.
  do 6 (destruct k as [| k]; [split; [reflexivity | eexists; reflexivity] |]).
  lia.
Qed.

(** Unfolds the cascade and splits on every test it makes. *)
Ltac cascade :=
  unfold makeDecision, makeRandomAction, attackDecision, strike,
    jumpDecision, movementDecision, strafeOrWait;
  run_monad;
  repeat (match goal with
          | |- context [if ?c then _ else _] => destruct c eqn:?
          end; run_monad).

(** Under a lawful random source [makeDecision] always returns an action
    object, never [undefined]. *)
Lemma makeDecision_total (random : nat -> Q) (aiPlayer opponent : Fighter)
    (distance : Q) (isOpponentLeft : bool) (s : AIController) (n : nat) :
  validDraws random ->
  exists a,
    fst (makeDecision random aiPlayer opponent distance isOpponentLeft (s, n))
    = Some a.
Proof.
  intro Hv.
  destruct (Hv (S n)) as [H0 H1].
  destruct (floor_six _ H0 H1) as (k & Hk & Hfloor & _).
  destruct (index_actions k Hk) as [Hidx [a Ha]].
  cascade; try (eexists; reflexivity).
  rewrite Hfloor, Hidx. exists a. exact Ha.
Qed.

(** [makeDecision] writes only the two cooldowns and [strikeCount]. *)
Lemma makeDecision_frame (random : nat -> Q) (aiPlayer opponent : Fighter)
    (distance : Q) (isOpponentLeft : bool) (s : AIController) (n : nat) :
  let s' := fst (snd (makeDecision random aiPlayer opponent distance
                        isOpponentLeft (s, n))) in
  difficulty s' = difficulty s /\
  state s' = state s /\
  reactionTime s' = reactionTime s /\
  lastDecisionTime s' = lastDecisionTime s /\
  currentAction s' = currentAction s /\
  actionDuration s' = actionDuration s /\
  params s' = params s.
Proof. cbv zeta. cascade; repeat split; reflexivity. Qed.

(** ** Reaction gating *)

(** The action a controller repeats inside the reaction window. *)
Lemma update_alive_returns_current (random : nat -> Q)
    (aiPlayer opponent : Fighter) (currentTime : Q) (s : AIController)
    (n : nat) :
  validDraws random ->
  dead aiPlayer || dead opponent = false ->
  let r := update random aiPlayer opponent currentTime (s, n) in
  fst r =
  Some (match currentAction (fst (snd r)) with Some a => a | None => Idle end).
Proof.
  intros Hv Hd. cbv zeta.
  destruct (updateCooldowns_frame s) as (_ & _ & _ & _ & Hc & _).
  destruct (isAttacking aiPlayer) eqn:Ha.
  { rewrite update_attacking by assumption. cbn [fst snd].
    rewrite Hc. reflexivity. }
  destruct (Qltb (currentTime - lastDecisionTime s) (reactionTime s)) eqn:Hg.
  { rewrite update_gated by assumption. cbn [fst snd].
    rewrite Hc. reflexivity. }
  rewrite update_fresh by assumption. cbv zeta.
  destruct (makeDecision_total random aiPlayer opponent
              (getDistance aiPlayer opponent)
              (Qltb (x (position opponent)) (x (position aiPlayer)))
              (set_lastDecisionTime currentTime (updateCooldowns s)) n Hv)
    as [a Ha'].
  cbn [fst snd]. rewrite Ha'. reflexivity.
Qed.

Lemma update_fresh_timer (random : nat -> Q) (aiPlayer opponent : Fighter)
    (currentTime : Q) (s : AIController) (n : nat) :
  dead aiPlayer || dead opponent = false ->
  isAttacking aiPlayer = false ->
  Qltb (currentTime - lastDecisionTime s) (reactionTime s) = false ->
  let s' := fst (snd (update random aiPlayer opponent currentTime (s, n))) in
  lastDecisionTime s' = currentTime /\ reactionTime s' = reactionTime s.
Proof.
  intros Hd Ha Hg. cbv zeta.
  rewrite update_fresh by assumption. cbv zeta. cbn [fst snd].
  destruct (makeDecision_frame random aiPlayer opponent
              (getDistance aiPlayer opponent)
              (Qltb (x (position opponent)) (x (position aiPlayer)))
              (set_lastDecisionTime currentTime (updateCooldowns s)) n)
    as (_ & _ & Hr & Hl & _).
  destruct (updateCooldowns_frame s) as (_ & _ & Hr' & _).
  split.
  - etransitivity; [exact Hl | reflexivity].
  - etransitivity; [exact Hr | exact Hr'].
Qed.

(** C2, as the code has it: of two consecutive [update] calls with neither
    fighter dead on either, the second returns the action of the first
    whenever the reaction test of the second call,
    [now2 - lastDecisionTime < reactionTime] on the [lastDecisionTime] that
    the first call left, holds; in particular whenever the first call
    computed a decision, so that [lastDecisionTime] is [now1], and the test
    [now2 - now1 < reactionTime] holds. *)
Theorem C2_reaction_gating (random : nat -> Q) (fr1 fr2 : Frame)
    (s : AIController) (n : nat) :
  validDraws random ->
  dead (f_self fr1) || dead (f_opponent fr1) = false ->
  dead (f_self fr2) || dead (f_opponent fr2) = false ->
  let w1 := after random fr1 (s, n) in
  (withinReaction (f_now fr2) (lastDecisionTime (fst w1))
     (reactionTime (fst w1)) = true ->
   returned random fr2 w1 = returned random fr1 (s, n)) /\
  (isAttacking (f_self fr1) = false ->
   withinReaction (f_now fr1) (lastDecisionTime s) (reactionTime s) = false ->
   withinReaction (f_now fr2) (f_now fr1) (reactionTime s) = true ->
   returned random fr2 w1 = returned random fr1 (s, n)).
Proof.
  intros Hv Hd1 Hd2. cbv zeta.
  assert (Hgate :
    withinReaction (f_now fr2)
      (lastDecisionTime (fst (after random fr1 (s, n))))
      (reactionTime (fst (after random fr1 (s, n)))) = true ->
    returned random fr2 (after random fr1 (s, n))
      = returned random fr1 (s, n)).
  { intro Hlt.
    pose proof (update_alive_returns_current random (f_self fr1)
                  (f_opponent fr1) (f_now fr1) s n Hv Hd1) as H1.
    cbv zeta in H1.
    unfold returned, after, step in *.
    destruct (update random (f_self fr1) (f_opponent fr1) (f_now fr1) (s, n))
      as [a1 [s1 n1]].
    cbn [fst snd] in *.
    rewrite update_gated; [| assumption | exact Hlt].
    cbn [fst]. symmetry. exact H1. }
  split; [exact Hgate |].
  intros Ha Hopen Hclose. apply Hgate.
  destruct (update_fresh_timer random (f_self fr1) (f_opponent fr1)
              (f_now fr1) s n Hd1 Ha Hopen) as [Hl Hr].
  unfold after, step. rewrite Hl, Hr. exact Hclose.
Qed.

Lemma C2_reaction_gating_witness :
  (validDraws attackDraws /\
   dead nearSelf || dead nearOpponent = false /\
   withinReaction 799
     (lastDecisionTime
        (fst (after attackDraws (mkFrame nearSelf nearOpponent 400)
                (constructor "medium", O))))
     (reactionTime
        (fst (after attackDraws (mkFrame nearSelf nearOpponent 400)
                (constructor "medium", O)))) = true) /\
  returned attackDraws (mkFrame nearSelf nearOpponent 799)
    (after attackDraws (mkFrame nearSelf nearOpponent 400)
       (constructor "medium", O))
  = returned attackDraws (mkFrame nearSelf nearOpponent 400)
      (constructor "medium", O).
Proof.
  assert (Hv : validDraws attackDraws).
  { intro k. destruct k as [| [| k]]; split; reflexivity || discriminate. }
  split; [split; [exact Hv | split; reflexivity] |].
  destruct (C2_reaction_gating attackDraws
              (mkFrame nearSelf nearOpponent 400)
              (mkFrame nearSelf nearOpponent 799)
              (constructor "medium") O Hv eq_refl eq_refl) as [Hsame _].
  apply Hsame. reflexivity.
Defined.

(** The sentence of C2 as the claim words it fails: with a reaction time of
    400, a call at clock 399 is still gated and returns the idle action, and
    the call at clock 401, only 2 later, computes a decision and attacks. *)
Lemma C2_counterexample :
  let s := constructor "medium" in
  let fr1 := mkFrame nearSelf nearOpponent 399 in
  let fr2 := mkFrame nearSelf nearOpponent 401 in
  f_now fr2 - f_now fr1 < reactionTime s /\
  dead (f_self fr1) || dead (f_opponent fr1) = false /\
  dead (f_self fr2) || dead (f_opponent fr2) = false /\
  returned attackDraws fr1 (s, O) = Some Idle /\
  returned attackDraws fr2 (after attackDraws fr1 (s, O)) = Some Attack /\
  returned attackDraws fr2 (after attackDraws fr1 (s, O))
    <> returned attackDraws fr1 (s, O).
Proof.
  cbv zeta. repeat split; try reflexivity.
  vm_compute. discriminate.
Qed.

(** Reads fields through the assignments made so far. *)
Ltac fields :=
  cbn [difficulty state reactionTime lastDecisionTime currentAction
       actionDuration attackCooldown jumpCooldown strikeCount params
       set_difficulty set_reactionTime set_lastDecisionTime set_currentAction
       set_attackCooldown set_jumpCooldown set_strikeCount set_params].

(** Follows the branch that the hypotheses on the tests select. *)
Ltac follow :=
  repeat (match goal with
          | H : ?c = _ |- context [if ?c then _ else _] => rewrite H
          end; run_monad; fields).

(** The mistake branch: two draws, no field written. *)
Lemma makeDecision_mistake (random : nat -> Q) (aiPlayer opponent : Fighter)
    (distance : Q) (isOpponentLeft : bool) (s : AIController) (n : nat) :
  Qltb (random n) (mistakes (params s)) = true ->
  makeDecision random aiPlayer opponent distance isOpponentLeft (s, n) =
  (index actions
     (Qfloor (random (S n) * inject_Z (Z.of_nat (length actions)))),
   (s, S (S n))).
Proof.
  intro Hm. unfold makeDecision, makeRandomAction. run_monad.
  follow. reflexivity.
Qed.

(** The attack branch away from the easy tier: three draws, the cooldown
    armed with the third. *)
Lemma makeDecision_attack (random : nat -> Q) (aiPlayer opponent : Fighter)
    (distance : Q) (isOpponentLeft : bool) (s : AIController) (n : nat) :
  Qltb (random n) (mistakes (params s)) = false ->
  Qltb distance (attackRange (params s)) = true ->
  Qeq_bool (attackCooldown s) 0 = true ->
  Qltb (random (S n)) (aggressiveness (params s)) = true ->
  (difficulty s =? "easy") = false ->
  makeDecision random aiPlayer opponent distance isOpponentLeft (s, n) =
  (Some Attack,
   (set_attackCooldown
      (attackCooldownMin (params s)
       + random (S (S n))
         * (attackCooldownMax (params s) - attackCooldownMin (params s))) s,
    S (S (S n)))).
Proof.
  intros Hm Hrange Hcd Hroll Htier.
  assert (Hready : Qltb distance (attackRange (params s))
                   && Qeq_bool (attackCooldown s) 0 = true)
    by (rewrite Hrange, Hcd; reflexivity).
  unfold makeDecision, attackDecision, strike. run_monad.
  follow. reflexivity.
Qed.

(** The attack branch at the easy tier: [strikeCount] is incremented, and
    every third strike is the scripted miss. *)
Lemma makeDecision_easy_strike (random : nat -> Q)
    (aiPlayer opponent : Fighter) (distance : Q) (isOpponentLeft : bool)
    (s : AIController) (n : nat) :
  Qltb (random n) (mistakes (params s)) = false ->
  Qltb distance (attackRange (params s)) = true ->
  Qeq_bool (attackCooldown s) 0 = true ->
  Qltb (random (S n)) (aggressiveness (params s)) = true ->
  (difficulty s =? "easy") = true ->
  makeDecision random aiPlayer opponent distance isOpponentLeft (s, n) =
  if (Z.rem (strikeCount s + 1) 3 =? 0)%Z
  then (Some Idle,
        (set_attackCooldown (attackCooldownMin (params s))
           (set_strikeCount (strikeCount s + 1) s),
         S (S n)))
  else (Some Attack,
        (set_attackCooldown
           (attackCooldownMin (params s)
            + random (S (S n))
              * (attackCooldownMax (params s) - attackCooldownMin (params s)))
           (set_strikeCount (strikeCount s + 1) s),
         S (S (S n)))).
Proof.
  intros Hm Hrange Hcd Hroll Htier.
  assert (Hready : Qltb distance (attackRange (params s))
                   && Qeq_bool (attackCooldown s) 0 = true)
    by (rewrite Hrange, Hcd; reflexivity).
  unfold makeDecision, attackDecision, strike. run_monad.
  follow.
  destruct (Z.rem (strikeCount s + 1) 3 =? 0)%Z; run_monad; reflexivity.
Qed.

(** The state on which a fresh decision is computed. *)
Lemma deciding_state (currentTime : Q) (s : AIController) :
  let s1 := set_lastDecisionTime currentTime (updateCooldowns s) in
  params s1 = params s /\ difficulty s1 = difficulty s /\
  strikeCount s1 = strikeCount s /\
  attackCooldown s1 = attackCooldown (updateCooldowns s) /\
  jumpCooldown s1 = jumpCooldown (updateCooldowns s).
Proof.
  destruct (updateCooldowns_frame s) as (Hd & _ & _ & _ & _ & _ & Hs & Hp).
  cbv zeta. fields. repeat split; assumption.
Qed.

(** ** The mistake branch *)

(** Away from the ends of the sixths of the unit interval, by the margin,
    the index is the number of the sixth. *)
Lemma randomIndex_sixth (u : Q) (j k : nat) :
  randomIndex u = Z.of_nat k ->
  (inject_Z (Z.of_nat j) + roundingMargin) / 6 <= u ->
  u <= (inject_Z (Z.of_nat j) + 1 - roundingMargin) / 6 ->
  j = k.
Proof.
  intros Hk Hlo Hhi.
  pose proof (Qfloor_le (u * 6)) as Flo.
  pose proof (Qlt_floor (u * 6)) as Fhi.
  change (Qfloor (u * 6)) with (randomIndex u) in Flo, Fhi.
  rewrite Hk in Flo, Fhi.
  rewrite inject_Z_plus in Fhi. change (inject_Z 1) with 1 in Fhi.
  unfold roundingMargin, Qdiv in Hlo, Hhi.
  change (/ 6) with (1 # 6) in Hlo, Hhi.
  assert (H1 : inject_Z (Z.of_nat j) < inject_Z (Z.of_nat k + 1))
    by (rewrite inject_Z_plus; change (inject_Z 1) with 1; lra).
  assert (H2 : inject_Z (Z.of_nat k) < inject_Z (Z.of_nat j + 1))
    by (rewrite inject_Z_plus; change (inject_Z 1) with 1; lra).
  rewrite <- Zlt_Qlt in H1, H2. lia.
Qed.

(** C7: when a decision is computed and the mistake roll succeeds, the
    action returned is the element of the six-element mistake set at the
    index [Math.floor(u * 6)] of the next draw [u], an index among 0, ...,
    5; it is the k-th element for every draw of the k-th sixth of the unit
    interval that keeps the margin from its two ends, so that each of the
    six actions has the same share of the draws.  Apart from the clock and
    [currentAction] stored by [update], the branch writes nothing: both
    cooldowns and [strikeCount] are as the cooldown update left them,
    whichever action was drawn. *)
Theorem C7_mistake_branch (random : nat -> Q) (aiPlayer opponent : Fighter)
    (currentTime : Q) (s : AIController) (n : nat) :
  dead aiPlayer || dead opponent = false ->
  isAttacking aiPlayer = false ->
  reactionTime s <= currentTime - lastDecisionTime s ->
  random n < mistakes (params s) ->
  0 <= random (S n) -> random (S n) < 1 ->
  let r := update random aiPlayer opponent currentTime (s, n) in
  actions = [Idle; Move Left; Move Right; Attack; Jump Left; Jump Right] /\
  exists (k : nat) (a : Action),
    (k < 6)%nat /\ randomIndex (random (S n)) = Z.of_nat k /\
    nth_error actions k = Some a /\
    (forall j : nat,
       (inject_Z (Z.of_nat j) + roundingMargin) / 6 <= random (S n) ->
       random (S n) <= (inject_Z (Z.of_nat j) + 1 - roundingMargin) / 6 ->
       j = k) /\
    r = (Some a,
         (set_currentAction (Some a)
            (set_lastDecisionTime currentTime (updateCooldowns s)),
          S (S n))) /\
    attackCooldown (fst (snd r)) = attackCooldown (updateCooldowns s) /\
    jumpCooldown (fst (snd r)) = jumpCooldown (updateCooldowns s) /\
    strikeCount (fst (snd r)) = strikeCount s.
Proof.
  intros Hd Ha Hopen Hm H0 H1. cbv zeta.
  split; [reflexivity |].
  destruct (floor_six _ H0 H1) as (k & Hk & Hfloor & _).
  destruct (index_actions k Hk) as [Hidx [a Hnth]].
  exists k, a.
  apply Qltb_false in Hopen. apply Qltb_true in Hm.
  destruct (deciding_state currentTime s) as (Hp & _ & Hs & _).
  cbv zeta in Hp, Hs.
  rewrite update_fresh by assumption. cbv zeta.
  rewrite makeDecision_mistake by (rewrite Hp; exact Hm).
  rewrite Hfloor, Hidx, Hnth. cbn [fst snd].
  destruct (updateCooldowns_frame s) as (_ & _ & _ & _ & _ & _ & Hs' & _).
  split; [exact Hk |]. split; [exact Hfloor |]. split; [reflexivity |].
  split; [intros j; apply randomIndex_sixth; exact Hfloor |].
  repeat split; try assumption.
Qed.

Lemma C7_mistake_branch_witness :
  (dead nearSelf || dead nearOpponent = false /\
   isAttacking nearSelf = false /\
   reactionTime (constructor "easy")
     <= 1200 - lastDecisionTime (constructor "easy") /\
   draws3 0.25 0.5 0 O < mistakes (params (constructor "easy")) /\
   0 <= draws3 0.25 0.5 0 1%nat /\ draws3 0.25 0.5 0 1%nat < 1) /\
  exists (k : nat) (a : Action),
    (k < 6)%nat /\ randomIndex (draws3 0.25 0.5 0 1%nat) = Z.of_nat k /\
    nth_error actions k = Some a /\
    update (draws3 0.25 0.5 0) nearSelf nearOpponent 1200
      (constructor "easy", O) =
    (Some a,
     (set_currentAction (Some a)
        (set_lastDecisionTime 1200 (updateCooldowns (constructor "easy"))),
      2%nat)).
Proof.
  split.
  - repeat split; reflexivity || discriminate.
  - destruct (C7_mistake_branch (draws3 0.25 0.5 0) nearSelf nearOpponent
                1200 (constructor "easy") O)
      as (_ & k & a & Hk & Hidx & Hnth & _ & Hr & _);
      try reflexivity; try discriminate.
    exists k, a. repeat split; assumption.
Defined.

(** ** The end-to-end attack *)

(** C6: a medium controller whose attack cooldown is 0 and whose reaction
    gate is open, called with itself at x = 0 and the opponent at x = 150,
    both 40 wide and alive, the controlled fighter not attacking, a failing
    mistake roll and a succeeding aggressiveness roll, returns the attack
    and arms [attackCooldown] with a value between 180 and 240. *)
Theorem C6_end_to_end_attack (random : nat -> Q)
    (aiPlayer opponent : Fighter) (currentTime : Q) (s : AIController)
    (n : nat) :
  difficulty s = "medium" -> params s = getDifficultyParams "medium" ->
  attackCooldown s == 0 ->
  reactionTime s <= currentTime - lastDecisionTime s ->
  x (position aiPlayer) = 0 -> width aiPlayer = 40 ->
  x (position opponent) = 150 -> width opponent = 40 ->
  dead aiPlayer = false -> dead opponent = false ->
  isAttacking aiPlayer = false ->
  ~ random n < mistakes (params s) ->
  random (S n) < aggressiveness (params s) ->
  0 <= random (S (S n)) -> random (S (S n)) < 1 ->
  let r := update random aiPlayer opponent currentTime (s, n) in
  fst r = Some Attack /\
  180 <= attackCooldown (fst (snd r)) /\ attackCooldown (fst (snd r)) <= 240.
Proof.
  intros Htier Hparams Hcd Hopen Hx Hw Hox How Hd Hod Ha Hm Hroll H0 H1.
  cbv zeta.
  assert (Hdead : dead aiPlayer || dead opponent = false)
    by (rewrite Hd, Hod; reflexivity).
  apply Qltb_false in Hopen.
  rewrite update_fresh by assumption. cbv zeta.
  destruct (deciding_state currentTime s) as (Hp & Hdf & _ & Hac & _).
  cbv zeta in Hp, Hdf, Hac.
  assert (Hrest : attackCooldown (updateCooldowns s) = attackCooldown s).
  { rewrite updateCooldowns_attack.
    replace (Qltb 0 (attackCooldown s)) with false; [reflexivity |].
    symmetry. apply Qltb_false. rewrite Hcd. apply Qle_refl. }
  set (s1 := set_lastDecisionTime currentTime (updateCooldowns s)) in *.
  rewrite makeDecision_attack.
  - cbn [fst snd]. fields. rewrite Hp, Hparams.
    split; [reflexivity |].
    cbn [getDifficultyParams String.eqb Ascii.eqb Bool.eqb mediumParams
         attackCooldownMin attackCooldownMax].
    split; lra.
  - rewrite Hp. apply Qltb_false. apply Qnot_lt_le. exact Hm.
  - rewrite Hp, Hparams. unfold getDistance. rewrite Hx, Hw, Hox, How.
    reflexivity.
  - apply Qeq_bool_iff. rewrite Hac, Hrest. exact Hcd.
  - rewrite Hp. apply Qltb_true. exact Hroll.
  - rewrite Hdf, Htier. reflexivity.
Qed.

Lemma C6_end_to_end_attack_witness :
  (attackCooldown (constructor "medium") == 0 /\
   reactionTime (constructor "medium")
     <= 400 - lastDecisionTime (constructor "medium") /\
   ~ attackDraws O < mistakes (params (constructor "medium")) /\
   attackDraws 1%nat < aggressiveness (params (constructor "medium")) /\
   0 <= attackDraws 2%nat /\ attackDraws 2%nat < 1) /\
  fst (update attackDraws nearSelf nearOpponent 400 (constructor "medium", O))
  = Some Attack.
Proof.
  split.
  - repeat split; try reflexivity; discriminate.
  - apply (C6_end_to_end_attack attackDraws nearSelf nearOpponent 400
             (constructor "medium") O);
      try reflexivity; discriminate.
Defined.

(** ** The scripted miss of the easy tier *)

Lemma attempt_easy (aiPlayer opponent : Fighter) (distance : Q)
    (isOpponentLeft : bool) (rolls : Q * Q * Q) (s : AIController) :
  difficulty s = "easy" ->
  params s = params (forceMistakes 0 (constructor "easy")) ->
  distance < attackRange (params s) ->
  strikingRolls (params s) rolls ->
  let r := attempt aiPlayer opponent distance isOpponentLeft rolls s in
  fst r = scriptedOutcome (strikeCount s + 1) /\
  difficulty (snd r) = "easy" /\
  params (snd r) = params s /\
  strikeCount (snd r) = (strikeCount s + 1)%Z /\
  attackCooldown (snd r) == attackCooldownMin (params s).
Proof.
  intros Htier Hparams Hrange Hrolls.
  destruct rolls as [[m a] c]. destruct Hrolls as [Hm Ha].
  cbv zeta. unfold attempt.
  rewrite makeDecision_easy_strike; fields.
  - unfold scriptedOutcome.
    destruct (Z.rem (strikeCount s + 1) 3 =? 0)%Z; cbn [fst snd]; fields.
    + repeat split; try assumption; reflexivity.
    + repeat split; try assumption.
      rewrite Hparams. cbn. ring.
  - apply Qltb_false. rewrite Hparams. exact Hm.
  - apply Qltb_true. exact Hrange.
  - reflexivity.
  - apply Qltb_true. exact Ha.
  - rewrite Htier. reflexivity.
Qed.

(** Any number of consecutive attempts, from any strike count, follow the
    script, and each leaves the cooldown at [attackCooldownMin]. *)
Lemma attempts_easy (aiPlayer opponent : Fighter) (distance : Q)
    (isOpponentLeft : bool) (rolls : list (Q * Q * Q)) :
  forall s : AIController,
  difficulty s = "easy" ->
  params s = params (forceMistakes 0 (constructor "easy")) ->
  distance < attackRange (params s) ->
  Forall (strikingRolls (params s)) rolls ->
  let log := attempts aiPlayer opponent distance isOpponentLeft rolls s in
  map fst log = scriptedLog (strikeCount s) (length rolls) /\
  Forall (fun e => snd e == attackCooldownMin (params s)) log.
Proof.
  induction rolls as [| r rest IH]; intros s Htier Hparams Hrange Hrolls.
  - split; [reflexivity | constructor].
  - inversion Hrolls as [| ? ? Hr Hrest]; subst.
    destruct (attempt_easy aiPlayer opponent distance isOpponentLeft r s
                Htier Hparams Hrange Hr) as (Ha & Ht' & Hp' & Hs' & Hc').
    cbv zeta. cbn [attempts length scriptedLog].
    destruct (attempt aiPlayer opponent distance isOpponentLeft r s)
      as [a s'].
    cbn [fst snd] in *.
    destruct (IH s') as [Hlog Hcds].
    + exact Ht'.
    + rewrite Hp'. exact Hparams.
    + rewrite Hp'. exact Hrange.
    + rewrite Hp'. exact Hrest.
    + cbn [map fst snd]. split.
      * rewrite Ha, Hlog, Hs'. reflexivity.
      * constructor; [exact Hc' |]. rewrite <- Hp'. exact Hcds.
Qed.

(** C3: at the easy tier with [mistakes] forced to 0 and [strikeCount] 0,
    nine consecutive attack attempts made within [attackRange], each with
    the cooldown run out and a succeeding aggressiveness roll, return the
    attack on the 1st, 2nd, 4th, 5th, 7th and 8th attempt and the idle action
    on the 3rd, 6th and 9th; every attempt, the misses included, leaves
    [attackCooldown] at [attackCooldownMin], which is 120. *)
Theorem C3_easy_scripted_miss (aiPlayer opponent : Fighter) (distance : Q)
    (isOpponentLeft : bool) (rolls : list (Q * Q * Q)) (s : AIController) :
  difficulty s = "easy" ->
  params s = params (forceMistakes 0 (constructor "easy")) ->
  strikeCount s = 0%Z ->
  distance < attackRange (params s) ->
  length rolls = 9%nat ->
  Forall (strikingRolls (params s)) rolls ->
  let log := attempts aiPlayer opponent distance isOpponentLeft rolls s in
  map fst log =
    [Some Attack; Some Attack; Some Idle;
     Some Attack; Some Attack; Some Idle;
     Some Attack; Some Attack; Some Idle] /\
  Forall (fun e => snd e == attackCooldownMin (params s)) log /\
  attackCooldownMin (params s) = 120.
Proof.
  intros Htier Hparams Hcount Hrange Hlen Hrolls.
  destruct (attempts_easy aiPlayer opponent distance isOpponentLeft rolls s
              Htier Hparams Hrange Hrolls) as [Hlog Hcds].
  cbv zeta. split; [| split].
  - rewrite Hlog, Hcount, Hlen. reflexivity.
  - exact Hcds.
  - rewrite Hparams. reflexivity.
Qed.

Lemma C3_easy_scripted_miss_witness :
  (length (repeat (0, 0.5, 0.75) 9) = 9%nat /\
   Forall (strikingRolls (params (forceMistakes 0 (constructor "easy"))))
     (repeat (0, 0.5, 0.75) 9)) /\
  map fst
    (attempts nearSelf nearOpponent 150 false (repeat (0, 0.5, 0.75) 9)
       (forceMistakes 0 (constructor "easy"))) =
    [Some Attack; Some Attack; Some Idle;
     Some Attack; Some Attack; Some Idle;
     Some Attack; Some Attack; Some Idle].
Proof.
  assert (H : Forall
                (strikingRolls (params (forceMistakes 0 (constructor "easy"))))
                (repeat (0, 0.5, 0.75) 9)).
  { repeat constructor; discriminate. }
  split; [split; [reflexivity | exact H] |].
  apply (C3_easy_scripted_miss nearSelf nearOpponent 150 false
           (repeat (0, 0.5, 0.75) 9)
           (forceMistakes 0 (constructor "easy")));
    try reflexivity.
  exact H.
Defined.

(** ** Runs and reachability *)

Lemma run_cons (random : nat -> Q) (fr : Frame) (rest : list Frame)
    (w : World) :
  run random (fr :: rest) w =
  (returned random fr w :: fst (run random rest (after random fr w)),
   snd (run random rest (after random fr w))).
Proof.
  unfold returned, after. cbn [run]. unfold bind, ret.
  destruct (step random fr w) as [a w1]. cbn [fst snd].
  destruct (run random rest w1) as [others w2]. reflexivity.
Qed.

Lemma reachable_run (random : nat -> Q) (frames : list Frame) :
  validDraws random ->
  forall (s : AIController) (n : nat),
    reachable s -> reachable (fst (snd (run random frames (s, n)))).
Proof.
  intro Hv. induction frames as [| fr rest IH]; intros s n Hs.
  - exact Hs.
  - rewrite run_cons. cbn [snd].
    pose proof (reachable_update random fr s n Hv Hs) as Hstep.
    destruct (after random fr (s, n)) as [s1 n1].
    apply IH. exact Hstep.
Qed.

Lemma attackDraws_valid : validDraws attackDraws.
Proof.
  intro k. destruct k as [| [| k]]; split; reflexivity || discriminate.
Qed.

(** ** The attack cooldown *)

(** A decision writes [attackCooldown] only when it finds it equal to 0. *)
Lemma makeDecision_attackCooldown (random : nat -> Q)
    (aiPlayer opponent : Fighter) (distance : Q) (isOpponentLeft : bool)
    (s : AIController) (n : nat) :
  Qeq_bool (attackCooldown s) 0 = false ->
  attackCooldown
    (fst (snd (makeDecision random aiPlayer opponent distance isOpponentLeft
                 (s, n))))
  = attackCooldown s.
Proof.
  intro Hne. cascade; fields; try reflexivity;
    match goal with
    | H : _ && Qeq_bool (attackCooldown s) 0 = true |- _ =>
        rewrite Hne, andb_false_r in H; discriminate H
    end.
Qed.

(** Once negative, [attackCooldown] is never decremented and never written
    again: the test [attackCooldown === 0] of the attack branch stays
    false on every later call. *)
Lemma negative_attackCooldown_is_permanent (random : nat -> Q)
    (aiPlayer opponent : Fighter) (currentTime : Q) (s : AIController)
    (n : nat) :
  attackCooldown s < 0 ->
  attackCooldown
    (fst (snd (update random aiPlayer opponent currentTime (s, n))))
  = attackCooldown s.
Proof.
  intro Hneg.
  assert (Hrest : attackCooldown (updateCooldowns s) = attackCooldown s).
  { rewrite updateCooldowns_attack.
    replace (Qltb 0 (attackCooldown s)) with false; [reflexivity |].
    symmetry. apply Qltb_false. apply Qlt_le_weak. exact Hneg. }
  destruct (dead aiPlayer || dead opponent) eqn:Hd.
  { rewrite update_dead by assumption. exact Hrest. }
  destruct (isAttacking aiPlayer) eqn:Ha.
  { rewrite update_attacking by assumption. exact Hrest. }
  destruct (Qltb (currentTime - lastDecisionTime s) (reactionTime s)) eqn:Hg.
  { rewrite update_gated by assumption. exact Hrest. }
  rewrite update_fresh by assumption. cbv zeta. cbn [fst snd]. fields.
  rewrite makeDecision_attackCooldown; fields; [exact Hrest |].
  rewrite Hrest.
  destruct (Qeq_bool (attackCooldown s) 0) eqn:E; [| reflexivity].
  apply Qeq_bool_iff in E. rewrite E in Hneg.
  exfalso. exact (Qlt_irrefl 0 Hneg).
Qed.

(** C1, at the failing input: a medium controller decides at clock 400 with
    the draws 0.5 (no mistake), 0.125 (attack) and 1/128, so that it attacks
    and arms [attackCooldown] with 180 + 60/128 = 180.46875.  The next 180
    calls bring it down to 0.46875, which is still positive, and the call
    after that decrements it to -0.53125: a reachable state with a negative
    attack cooldown. *)
Theorem C1_attackCooldown_goes_negative :
  validDraws attackDraws /\
  returned attackDraws (mkFrame nearSelf nearOpponent 400)
    (constructor "medium", O) = Some Attack /\
  attackCooldown (fst armedWorld) == 180.46875 /\
  attackCooldown (fst (laterWorld 180)) == 0.46875 /\
  attackCooldown (fst (laterWorld 181)) == -0.53125 /\
  attackCooldown (fst (laterWorld 181)) < 0 /\
  reachable (fst (laterWorld 181)).
Proof.
  split; [exact attackDraws_valid |].
  split; [reflexivity |].
  split; [reflexivity |].
  split; [vm_compute; reflexivity |].
  split; [vm_compute; reflexivity |].
  split; [vm_compute; reflexivity |].
  unfold laterWorld.
  pose proof (reachable_update attackDraws
                (mkFrame nearSelf nearOpponent 400) (constructor "medium") O
                attackDraws_valid (reachable_new "medium")) as Harmed.
  fold armedWorld in Harmed.
  destruct armedWorld as [s1 n1].
  apply reachable_run; [exact attackDraws_valid | exact Harmed].
Qed.

(** ** The jump cooldown *)

(** A decision leaves [jumpCooldown] alone or sets it to 120, and it can
    set it only when it finds it equal to 0. *)
Lemma makeDecision_jumpCooldown (random : nat -> Q)
    (aiPlayer opponent : Fighter) (distance : Q) (isOpponentLeft : bool)
    (s : AIController) (n : nat) :
  let s' := fst (snd (makeDecision random aiPlayer opponent distance
                        isOpponentLeft (s, n))) in
  (jumpCooldown s' = jumpCooldown s \/ jumpCooldown s' = 120) /\
  (Qeq_bool (jumpCooldown s) 0 = false -> jumpCooldown s' = jumpCooldown s).
Proof.
  cbv zeta. cascade; fields; split;
    solve [ left; reflexivity | right; reflexivity
          | intros _; reflexivity | intro; congruence ].
Qed.

Lemma update_jumpCooldown (random : nat -> Q) (aiPlayer opponent : Fighter)
    (currentTime : Q) (s : AIController) (n : nat) :
  let s' := fst (snd (update random aiPlayer opponent currentTime (s, n))) in
  let j := jumpCooldown (updateCooldowns s) in
  (jumpCooldown s' = j \/ jumpCooldown s' = 120) /\
  (Qeq_bool j 0 = false -> jumpCooldown s' = j).
Proof.
  cbv zeta.
  destruct (dead aiPlayer || dead opponent) eqn:Hd.
  { rewrite update_dead by assumption. split; [left |]; reflexivity. }
  destruct (isAttacking aiPlayer) eqn:Ha.
  { rewrite update_attacking by assumption. split; [left |]; reflexivity. }
  destruct (Qltb (currentTime - lastDecisionTime s) (reactionTime s)) eqn:Hg.
  { rewrite update_gated by assumption. split; [left |]; reflexivity. }
  rewrite update_fresh by assumption. cbv zeta. cbn [fst snd]. fields.
  exact (makeDecision_jumpCooldown random aiPlayer opponent
           (getDistance aiPlayer opponent)
           (Qltb (x (position opponent)) (x (position aiPlayer)))
           (set_lastDecisionTime currentTime (updateCooldowns s)) n).
Qed.

(** The decrement on an integer counter. *)
Lemma updateCooldowns_jump_integer (s : AIController) (k : Z) :
  jumpCooldown s = inject_Z k -> (0 <= k)%Z ->
  jumpCooldown (updateCooldowns s) = inject_Z (Z.max 0 (k - 1)).
Proof.
  intros Hj Hk. rewrite updateCooldowns_jump, Hj.
  destruct (Qltb 0 (inject_Z k)) eqn:E.
  - apply Qltb_true in E. change 0 with (inject_Z 0) in E.
    rewrite <- Zlt_Qlt in E.
    rewrite Z.max_r by lia.
    unfold Qminus, Qplus, Qopp, inject_Z. cbn.
    rewrite Z.mul_1_r. reflexivity.
  - apply Qltb_false in E. change 0 with (inject_Z 0) in E.
    rewrite <- Zle_Qle in E.
    replace k with 0%Z by lia. reflexivity.
Qed.

Lemma Qeq_bool_inject_Z_0 (k : Z) :
  Qeq_bool (inject_Z k) 0 = true <-> k = 0%Z.
Proof.
  rewrite Qeq_bool_iff. change 0 with (inject_Z 0).
  rewrite inject_Z_injective. reflexivity.
Qed.

(** The integer range of [jumpCooldown] is kept by every operation. *)
Lemma jumpCooldown_range (s : AIController) :
  reachable s ->
  exists k : Z, (0 <= k <= 120)%Z /\ jumpCooldown s = inject_Z k.
Proof.
  induction 1 as [d | random fr s n Hv Hs IH | d s Hs IH].
  - exists 0%Z. split; [lia | reflexivity].
  - destruct IH as (k & Hk & Hj).
    pose proof (updateCooldowns_jump_integer s k Hj (proj1 Hk)) as Htick.
    destruct (update_jumpCooldown random (f_self fr) (f_opponent fr)
                (f_now fr) s n) as [[Hsame | Harmed] _].
    + exists (Z.max 0 (k - 1)). split; [lia |].
      unfold after, step. rewrite Hsame. exact Htick.
    + exists 120%Z. split; [lia |].
      unfold after, step. rewrite Harmed. reflexivity.
  - destruct IH as (k & Hk & Hj). exists k. split; assumption.
Qed.

(** While the counter is above 1 a call takes exactly 1 off it. *)
Lemma update_jumpCooldown_countdown (random : nat -> Q) (fr : Frame)
    (s : AIController) (n : nat) (k : Z) :
  jumpCooldown s = inject_Z k -> (2 <= k)%Z ->
  jumpCooldown (fst (after random fr (s, n))) = inject_Z (k - 1).
Proof.
  intros Hj Hk.
  pose proof (updateCooldowns_jump_integer s k Hj ltac:(lia)) as Htick.
  rewrite Z.max_r in Htick by lia.
  destruct (update_jumpCooldown random (f_self fr) (f_opponent fr)
              (f_now fr) s n) as [_ Hkeep].
  unfold after, step. rewrite Hkeep; [exact Htick |].
  rewrite Htick.
  destruct (Qeq_bool (inject_Z (k - 1)) 0) eqn:E; [| reflexivity].
  apply Qeq_bool_inject_Z_0 in E. lia.
Qed.

Lemma run_jumpCooldown_countdown (random : nat -> Q) (frames : list Frame) :
  forall (s : AIController) (n : nat) (k : Z),
    jumpCooldown s = inject_Z k ->
    (Z.of_nat (length frames) < k)%Z ->
    jumpCooldown (fst (snd (run random frames (s, n))))
    = inject_Z (k - Z.of_nat (length frames)).
Proof.
  induction frames as [| fr rest IH]; intros s n k Hj Hlen.
  - cbn [run ret fst snd length Z.of_nat]. rewrite Z.sub_0_r. exact Hj.
  - cbn [length] in Hlen. rewrite run_cons. cbn [snd].
    pose proof (update_jumpCooldown_countdown random fr s n k Hj
                  ltac:(lia)) as Hstep.
    destruct (after random fr (s, n)) as [s1 n1]. cbn [fst] in Hstep.
    rewrite (IH s1 n1 (k - 1)%Z Hstep) by lia.
    f_equal. cbn [length]. lia.
Qed.

(** C9: in every reachable state [jumpCooldown] is an integer between 0 and
    120.  Moreover, once a call has set it to 120, it is [120 - i] after
    [i <= 119] further calls, so that the test [jumpCooldown === 0], made
    after the decrement of the following call, fails in each of the next
    119 calls and holds in the 120th. *)
Theorem C9_jumpCooldown_integer_range (s : AIController) :
  reachable s ->
  (exists k : Z, (0 <= k <= 120)%Z /\ jumpCooldown s = inject_Z k) /\
  (forall (random : nat -> Q) (frames : list Frame) (n : nat),
     jumpCooldown s = 120 ->
     (length frames <= 119)%nat ->
     let s' := fst (snd (run random frames (s, n))) in
     jumpCooldown s' = inject_Z (120 - Z.of_nat (length frames)) /\
     (Qeq_bool (jumpCooldown (updateCooldowns s')) 0 = true
      <-> length frames = 119%nat)).
Proof.
  intro Hs. split; [exact (jumpCooldown_range s Hs) |].
  intros random frames n Hj Hlen. cbv zeta.
  pose proof (run_jumpCooldown_countdown random frames s n 120 Hj
                ltac:(lia)) as Hrun.
  split; [exact Hrun |].
  rewrite (updateCooldowns_jump_integer _ _ Hrun) by lia.
  rewrite Qeq_bool_inject_Z_0. lia.
Qed.

Lemma C9_jumpCooldown_integer_range_witness :
  (reachable (fst jumpedWorld) /\ jumpCooldown (fst jumpedWorld) = 120 /\
   (length (framesFrom 401 119) <= 119)%nat) /\
  returned (draws3 0.5 0.5 0.25) (mkFrame nearSelf (fighterAt 50) 400)
    (constructor "medium", O) = Some (Jump Left) /\
  jumpCooldown
    (fst (snd (run attackDraws (framesFrom 401 119) (fst jumpedWorld, O))))
  = 1.
Proof.
  assert (Hv : validDraws (draws3 0.5 0.5 0.25)).
  { intro k. destruct k as [| [| k]]; split; reflexivity || discriminate. }
  pose proof (reachable_update (draws3 0.5 0.5 0.25)
                (mkFrame nearSelf (fighterAt 50) 400) (constructor "medium")
                O Hv (reachable_new "medium")) as Hreach.
  fold jumpedWorld in Hreach.
  assert (Hlen : (length (framesFrom 401 119) <= 119)%nat)
    by (apply Nat.eq_le_incl; reflexivity).
  split; [split; [exact Hreach | split; [reflexivity | exact Hlen]] |].
  split; [reflexivity |].
  destruct (C9_jumpCooldown_integer_range (fst jumpedWorld) Hreach)
    as [_ Hcount].
  destruct (Hcount attackDraws (framesFrom 401 119) O eq_refl Hlen)
    as [Hj _].
  exact Hj.
Defined.

(** * Further properties of the controller *)

(** ** What [update] never writes *)

(** [update] writes the cooldowns, [strikeCount], [lastDecisionTime] and
    [currentAction] only. *)
Lemma update_frame (random : nat -> Q) (aiPlayer opponent : Fighter)
    (currentTime : Q) (s : AIController) (n : nat) :
  let s' := fst (snd (update random aiPlayer opponent currentTime (s, n))) in
  difficulty s' = difficulty s /\
  state s' = state s /\
  reactionTime s' = reactionTime s /\
  actionDuration s' = actionDuration s /\
  params s' = params s.
Proof.
  cbv zeta.
  destruct (updateCooldowns_frame s) as (H1 & H2 & H3 & _ & _ & H6 & _ & H8).
  destruct (dead aiPlayer || dead opponent) eqn:Hd.
  { rewrite update_dead by assumption. cbn [fst snd].
    repeat split; assumption. }
  destruct (isAttacking aiPlayer) eqn:Ha.
  { rewrite update_attacking by assumption. cbn [fst snd].
    repeat split; assumption. }
  destruct (Qltb (currentTime - lastDecisionTime s) (reactionTime s)) eqn:Hg.
  { rewrite update_gated by assumption. cbn [fst snd].
    repeat split; assumption. }
  rewrite update_fresh by assumption. cbv zeta. cbn [fst snd]. fields.
  destruct (makeDecision_frame random aiPlayer opponent
              (getDistance aiPlayer opponent)
              (Qltb (x (position opponent)) (x (position aiPlayer)))
              (set_lastDecisionTime currentTime (updateCooldowns s)) n)
    as (G1 & G2 & G3 & _ & _ & G6 & G8).
  cbv zeta in G1, G2, G3, G6, G8.
  repeat split.
  - rewrite G1. exact H1.
  - rewrite G2. exact H2.
  - rewrite G3. exact H3.
  - rewrite G6. exact H6.
  - rewrite G8. exact H8.
Qed.

Lemma reachable_config (s : AIController) :
  reachable s ->
  reactionTime s = getReactionTime (difficulty s) /\
  params s = getDifficultyParams (difficulty s) /\
  state s = "idle" /\ actionDuration s = 0.
Proof.
  induction 1 as [d | random fr s n Hv Hs IH | d s Hs IH].
  - repeat split; reflexivity.
  - destruct IH as (Hr & Hp & Hst & Had).
    destruct (update_frame random (f_self fr) (f_opponent fr) (f_now fr) s n)
      as (G1 & G2 & G3 & G4 & G5).
    unfold after, step. cbv zeta in G1, G2, G3, G4, G5.
    rewrite G1, G2, G3, G4, G5. repeat split; assumption.
  - destruct IH as (_ & _ & Hst & Had).
    repeat split; assumption.
Qed.

(** X1: in every state a host can reach, the reaction time and the
    parameters are those of the table row of the current difficulty string
    (no call leaves a half-updated profile), so the profile in force is
    always one of the three rows of the table; and the two fields [state]
    and [actionDuration] still hold what the constructor gave them: no
    method ever writes them. *)
Theorem configuration_consistent (s : AIController) :
  reachable s ->
  reactionTime s = getReactionTime (difficulty s) /\
  params s = getDifficultyParams (difficulty s) /\
  ((reactionTime s = 1200 /\ params s = easyParams) \/
   (reactionTime s = 400 /\ params s = mediumParams) \/
   (reactionTime s = 150 /\ params s = hardParams)) /\
  state s = "idle" /\ actionDuration s = 0.
Proof.
  intro Hs.
  destruct (reachable_config s Hs) as (Hr & Hp & Hst & Had).
  repeat split; try assumption.
  rewrite Hr, Hp. unfold getReactionTime, getDifficultyParams.
  destruct (difficulty s =? "easy"); [left; split; reflexivity |].
  destruct (difficulty s =? "medium");
    [right; left; split; reflexivity |].
  destruct (difficulty s =? "hard");
    [right; right; split; reflexivity | right; left; split; reflexivity].
Qed.

Lemma configuration_consistent_witness :
  reachable (setDifficulty "hard" (fst armedWorld)) /\
  reactionTime (setDifficulty "hard" (fst armedWorld)) = 150 /\
  params (setDifficulty "hard" (fst armedWorld)) = hardParams.
Proof.
  assert (H : reachable (setDifficulty "hard" (fst armedWorld))).
  { apply reachable_setDifficulty.
    exact (reachable_update attackDraws (mkFrame nearSelf nearOpponent 400)
             (constructor "medium") O attackDraws_valid
             (reachable_new "medium")). }
  split; [exact H |].
  destruct (configuration_consistent _ H) as (Hr & Hp & _).
  split; [exact Hr | exact Hp].
Defined.

(** ** The decision timer *)

Lemma getReactionTime_positive (d : string) : 0 < getReactionTime d.
Proof.
  unfold getReactionTime.
  destruct (d =? "easy"); [reflexivity |].
  destruct (d =? "medium"); [reflexivity |].
  destruct (d =? "hard"); reflexivity.
Qed.

(** A call keeps [lastDecisionTime] or stores the clock, and it stores the
    clock only when its reaction test fails. *)
Lemma update_timer (random : nat -> Q) (aiPlayer opponent : Fighter)
    (currentTime : Q) (s : AIController) (n : nat) :
  let s' := fst (snd (update random aiPlayer opponent currentTime (s, n))) in
  lastDecisionTime s' = lastDecisionTime s \/
  (lastDecisionTime s' = currentTime /\
   withinReaction currentTime (lastDecisionTime s) (reactionTime s) = false).
Proof.
  cbv zeta.
  destruct (updateCooldowns_frame s) as (_ & _ & _ & Hl & _).
  destruct (dead aiPlayer || dead opponent) eqn:Hd.
  { rewrite update_dead by assumption. left. exact Hl. }
  destruct (isAttacking aiPlayer) eqn:Ha.
  { rewrite update_attacking by assumption. left. exact Hl. }
  destruct (Qltb (currentTime - lastDecisionTime s) (reactionTime s)) eqn:Hg.
  { rewrite update_gated by assumption. left. exact Hl. }
  right.
  destruct (update_fresh_timer random aiPlayer opponent currentTime s n
              Hd Ha Hg) as [Ht _].
  split; [exact Ht | exact Hg].
Qed.

(** X2: on a reachable controller a call of [update] either keeps
    [lastDecisionTime] or moves it to the clock of the call, and it moves it
    only on a call with both fighters alive, the controlled one not
    attacking, and a failing reaction test
    [now - lastDecisionTime < reactionTime]; the timer never goes back. *)
Theorem decision_timer_advances (random : nat -> Q) (fr : Frame)
    (s : AIController) (n : nat) :
  reachable s ->
  let s' := fst (after random fr (s, n)) in
  (lastDecisionTime s' = lastDecisionTime s \/
   (lastDecisionTime s' = f_now fr /\
    dead (f_self fr) || dead (f_opponent fr) = false /\
    isAttacking (f_self fr) = false /\
    withinReaction (f_now fr) (lastDecisionTime s) (reactionTime s) = false))
  /\ lastDecisionTime s <= lastDecisionTime s'.
Proof.
  intro Hs. cbv zeta.
  destruct (reachable_config s Hs) as (Hr & _).
  pose proof (getReactionTime_positive (difficulty s)) as Hpos.
  rewrite <- Hr in Hpos.
  destruct (updateCooldowns_frame s) as (_ & _ & _ & Hl & _).
  unfold after, step.
  destruct (dead (f_self fr) || dead (f_opponent fr)) eqn:Hd.
  { rewrite update_dead by assumption. cbn [fst snd]. rewrite Hl.
    split; [left; reflexivity | apply Qle_refl]. }
  destruct (isAttacking (f_self fr)) eqn:Ha.
  { rewrite update_attacking by assumption. cbn [fst snd]. rewrite Hl.
    split; [left; reflexivity | apply Qle_refl]. }
  destruct (update_timer random (f_self fr) (f_opponent fr) (f_now fr) s n)
    as [Hkeep | [Hset Hopen]]; cbv zeta in *.
  - split; [left; exact Hkeep |]. rewrite Hkeep. apply Qle_refl.
  - split; [right; repeat split; assumption |].
    rewrite Hset. apply Qltb_false in Hopen. lra.
Qed.

Lemma decision_timer_advances_witness :
  reachable (fst armedWorld) /\
  lastDecisionTime (fst armedWorld)
  <= lastDecisionTime
       (fst (after attackDraws (mkFrame nearSelf nearOpponent 900)
               (fst armedWorld, 3%nat))).
Proof.
  assert (H : reachable (fst armedWorld)).
  { exact (reachable_update attackDraws (mkFrame nearSelf nearOpponent 400)
             (constructor "medium") O attackDraws_valid
             (reachable_new "medium")). }
  split; [exact H |].
  destruct (decision_timer_advances attackDraws
              (mkFrame nearSelf nearOpponent 900) (fst armedWorld) 3%nat H)
    as [_ Hle].
  exact Hle.
Defined.

(** ** The branches of a decision *)

(** Without a mistake, and with the attack not ready or its roll lost, the
    decision is the one of the jump stage. *)
Lemma makeDecision_not_ready (random : nat -> Q) (aiPlayer opponent : Fighter)
    (distance : Q) (isOpponentLeft : bool) (s : AIController) (n : nat) :
  Qltb (random n) (mistakes (params s)) = false ->
  Qltb distance (attackRange (params s)) && Qeq_bool (attackCooldown s) 0
    = false ->
  makeDecision random aiPlayer opponent distance isOpponentLeft (s, n) =
  jumpDecision random (params s) distance isOpponentLeft (s, S n).
Proof.
  intros Hm Hready. unfold makeDecision, attackDecision. run_monad.
  follow. reflexivity.
Qed.

Lemma makeDecision_roll_lost (random : nat -> Q) (aiPlayer opponent : Fighter)
    (distance : Q) (isOpponentLeft : bool) (s : AIController) (n : nat) :
  Qltb (random n) (mistakes (params s)) = false ->
  Qltb distance (attackRange (params s)) && Qeq_bool (attackCooldown s) 0
    = true ->
  Qltb (random (S n)) (aggressiveness (params s)) = false ->
  makeDecision random aiPlayer opponent distance isOpponentLeft (s, n) =
  jumpDecision random (params s) distance isOpponentLeft (s, S (S n)).
Proof.
  intros Hm Hready Hroll. unfold makeDecision, attackDecision. run_monad.
  follow. reflexivity.
Qed.

(** The jump stage returns a jump, a move or the idle action.  It jumps only
    when [jumpCooldown] is 0: away from the opponent when the distance is
    below 100, toward it when the distance is between 250 and 400, setting
    the cooldown to 120.  Otherwise it writes nothing. *)
Lemma jumpDecision_cases (random : nat -> Q) (p : Params) (distance : Q)
    (isOpponentLeft : bool) (s : AIController) (n : nat) :
  let r := jumpDecision random p distance isOpponentLeft (s, n) in
  (exists dir,
     fst r = Some (Jump dir) /\
     Qeq_bool (jumpCooldown s) 0 = true /\
     fst (snd r) = set_jumpCooldown 120 s /\
     ((distance < 100 /\
       dir = (if isOpponentLeft then Right else Left)) \/
      (250 < distance /\ distance < 400 /\
       dir = (if isOpponentLeft then Left else Right)))) \/
  (fst (snd r) = s /\
   (fst r = Some Idle \/ exists dir, fst r = Some (Move dir))).
Proof.
  cbv zeta. unfold jumpDecision, movementDecision, strafeOrWait. run_monad.
  repeat (match goal with
          | |- context [if ?c then _ else _] => destruct c eqn:?
          end; run_monad);
    try (right; split;
         [reflexivity | first [left; reflexivity | right; eexists; reflexivity]]).
  all: left; eexists; split; [reflexivity |];
    split; [reflexivity |]; split; [reflexivity |].
  all: try (left; split; [apply Qltb_true; assumption | reflexivity]).
  all: right;
    match goal with
    | H : _ && _ = true |- _ => apply andb_true_iff in H; destruct H as [H1 H2]
    end;
    apply Qltb_true in H1; apply Qltb_true in H2;
    repeat split; assumption.
Qed.

(** The four ways a decision can go: a mistake, the jump stage, a strike
    and the scripted miss of the easy tier. *)
Lemma makeDecision_cases (random : nat -> Q) (aiPlayer opponent : Fighter)
    (distance : Q) (isOpponentLeft : bool) (s : AIController) (n : nat) :
  let r := makeDecision random aiPlayer opponent distance isOpponentLeft
             (s, n) in
  let p := params s in
  let ready := Qltb distance (attackRange p)
               && Qeq_bool (attackCooldown s) 0 in
  let roll := Qltb (random (S n)) (aggressiveness p) in
  let third := (difficulty s =? "easy")
               && (Z.rem (strikeCount s + 1) 3 =? 0)%Z in
  (Qltb (random n) (mistakes p) = true /\
   r = (index actions
          (Qfloor (random (S n) * inject_Z (Z.of_nat (length actions)))),
        (s, S (S n)))) \/
  (Qltb (random n) (mistakes p) = false /\ ready && roll = false /\
   exists n', r = jumpDecision random p distance isOpponentLeft (s, n')) \/
  (Qltb (random n) (mistakes p) = false /\ ready && roll = true /\
   third = false /\
   r = (Some Attack,
        (set_attackCooldown
           (attackCooldownMin p
            + random (S (S n)) * (attackCooldownMax p - attackCooldownMin p))
           (if difficulty s =? "easy"
            then set_strikeCount (strikeCount s + 1) s else s),
         S (S (S n))))) \/
  (Qltb (random n) (mistakes p) = false /\ ready && roll = true /\
   third = true /\
   r = (Some Idle,
        (set_attackCooldown (attackCooldownMin p)
           (set_strikeCount (strikeCount s + 1) s),
         S (S n)))).
Proof.
  cbv zeta.
  destruct (Qltb (random n) (mistakes (params s))) eqn:Hm.
  { left. split; [reflexivity |]. apply makeDecision_mistake. exact Hm. }
  right.
  destruct (Qltb distance (attackRange (params s))
            && Qeq_bool (attackCooldown s) 0) eqn:Hready.
  2:{ left. split; [reflexivity |]. split; [reflexivity |].
      exists (S n). apply makeDecision_not_ready; assumption. }
  destruct (Qltb (random (S n)) (aggressiveness (params s))) eqn:Hroll.
  2:{ left. split; [reflexivity |]. split; [reflexivity |].
      exists (S (S n)). apply makeDecision_roll_lost; assumption. }
  right.
  apply andb_true_iff in Hready. destruct Hready as [Hrange Hcd].
  destruct (difficulty s =? "easy") eqn:Htier.
  - rewrite makeDecision_easy_strike by assumption.
    destruct (Z.rem (strikeCount s + 1) 3 =? 0)%Z.
    + right. repeat split; reflexivity.
    + left. repeat split; reflexivity.
  - left. rewrite makeDecision_attack by assumption.
    repeat split; reflexivity.
Qed.

(** A decision made without a mistake returns the attack exactly when the
    attack is ready, its roll is won and it is not a scripted miss. *)
Lemma makeDecision_attack_iff (random : nat -> Q)
    (aiPlayer opponent : Fighter) (distance : Q) (isOpponentLeft : bool)
    (s : AIController) (n : nat) :
  Qltb (random n) (mistakes (params s)) = false ->
  fst (makeDecision random aiPlayer opponent distance isOpponentLeft (s, n))
    = Some Attack <->
  (Qltb distance (attackRange (params s))
   && Qeq_bool (attackCooldown s) 0)
  && Qltb (random (S n)) (aggressiveness (params s)) = true /\
  (difficulty s =? "easy") && (Z.rem (strikeCount s + 1) 3 =? 0)%Z = false.
Proof.
  intro Hm.
  destruct (makeDecision_cases random aiPlayer opponent distance
              isOpponentLeft s n)
    as [[Hm' _] | [(_ & Hno & n' & Hr) | [(_ & Hyes & Hthird & Hr)
                                        | (_ & Hyes & Hthird & Hr)]]];
    cbv zeta in *.
  - congruence.
  - rewrite Hr. split.
    + intro Hatt.
      destruct (jumpDecision_cases random (params s) distance isOpponentLeft
                  s n')
        as [(dir & Hj & _) | (_ & [Hi | [dir Hmv]])];
        cbv zeta in *; congruence.
    + intros [Hyes _]. congruence.
  - rewrite Hr. split; [intros _; split; assumption | reflexivity].
  - rewrite Hr. split; [discriminate | intros [_ Hno]; congruence].
Qed.

(** ** Deliberate attacks *)

(** X3: when [update] computes a decision and the mistake roll fails, it
    returns the attack exactly when the opponent is within [attackRange],
    the attack cooldown (after this call's decrement) is 0, the
    aggressiveness roll succeeds and the strike is not the scripted third
    one of the easy tier.  So outside the mistake branch no attack is ever
    returned out of range or during the cooldown. *)
Theorem deliberate_attack_iff (random : nat -> Q)
    (aiPlayer opponent : Fighter) (currentTime : Q) (s : AIController)
    (n : nat) :
  dead aiPlayer || dead opponent = false ->
  isAttacking aiPlayer = false ->
  reactionTime s <= currentTime - lastDecisionTime s ->
  ~ random n < mistakes (params s) ->
  fst (update random aiPlayer opponent currentTime (s, n)) = Some Attack <->
  (getDistance aiPlayer opponent < attackRange (params s) /\
   attackCooldown (updateCooldowns s) == 0 /\
   random (S n) < aggressiveness (params s) /\
   ~ (difficulty s = "easy" /\ Z.rem (strikeCount s + 1) 3 = 0%Z)).
Proof.
  intros Hd Ha Hopen Hm.
  apply Qltb_false in Hopen.
  rewrite update_fresh by assumption. cbv zeta. cbn [fst].
  destruct (updateCooldowns_frame s) as (Hdf & _ & _ & _ & _ & _ & Hsc & Hp).
  rewrite makeDecision_attack_iff.
  2:{ fields. rewrite Hp. apply Qltb_false. apply Qnot_lt_le. exact Hm. }
  fields. rewrite Hp, Hdf, Hsc.
  rewrite !andb_true_iff, andb_false_iff, !Qltb_true, Qeq_bool_iff.
  rewrite String.eqb_neq, Z.eqb_neq.
  split.
  - intros [[[Hrange Hcd] Hroll] Hthird].
    repeat split; try assumption.
    intros [He Hr]. destruct Hthird as [Hne | Hne]; contradiction.
  - intros (Hrange & Hcd & Hroll & Hthird).
    repeat split; try assumption.
    destruct (String.eqb_spec (difficulty s) "easy") as [He | Hne];
      [| left; exact Hne].
    right. intro Hr. apply Hthird. split; assumption.
Qed.

Lemma deliberate_attack_iff_witness :
  (dead nearSelf || dead nearOpponent = false /\
   isAttacking nearSelf = false /\
   reactionTime (fst armedWorld)
     <= 900 - lastDecisionTime (fst armedWorld) /\
   ~ draws3 0.5 0.125 0.5 O < mistakes (params (fst armedWorld))) /\
  fst (update (draws3 0.5 0.125 0.5) nearSelf nearOpponent 900
         (fst armedWorld, O)) <> Some Attack.
Proof.
  split.
  - repeat split; try reflexivity; discriminate.
  - intro Hatt.
    apply (deliberate_attack_iff (draws3 0.5 0.125 0.5) nearSelf nearOpponent
             900 (fst armedWorld) O) in Hatt;
      try reflexivity; try discriminate.
    destruct Hatt as (_ & Hcd & _). vm_compute in Hcd. discriminate Hcd.
Defined.

(** Splits a call of [update] into its three early exits, each leaving the
    cooldown-updated controller, and the computation of a decision. *)
Ltac update_exits aiPlayer opponent currentTime s Hd Ha Hg :=
  destruct (dead aiPlayer || dead opponent) eqn:Hd;
  [rewrite update_dead by assumption
  | destruct (isAttacking aiPlayer) eqn:Ha;
    [rewrite update_attacking by assumption
    | destruct (Qltb (currentTime - lastDecisionTime s) (reactionTime s))
        eqn:Hg;
      [rewrite update_gated by assumption
      | rewrite update_fresh by assumption; cbv zeta]]];
  cbn [fst snd].

(** ** The strike counter *)

(** X4: a call of [update] leaves [strikeCount] alone or adds 1 to it, and
    it adds 1 only at the easy tier, on a call that decided with the
    opponent within [attackRange] and the attack cooldown at 0; the action
    returned is then the one scripted for the new count: the idle action
    when the count is a multiple of 3, the attack otherwise. *)
Theorem strikeCount_counts_attack_attempts (random : nat -> Q)
    (aiPlayer opponent : Fighter) (currentTime : Q) (s : AIController)
    (n : nat) :
  let r := update random aiPlayer opponent currentTime (s, n) in
  let s' := fst (snd r) in
  strikeCount s' = strikeCount s \/
  (strikeCount s' = (strikeCount s + 1)%Z /\
   difficulty s = "easy" /\
   getDistance aiPlayer opponent < attackRange (params s) /\
   attackCooldown (updateCooldowns s) == 0 /\
   fst r = scriptedOutcome (strikeCount s')).
Proof.
  cbv zeta.
  destruct (updateCooldowns_frame s) as (Hdf & _ & _ & _ & _ & _ & Hsc & Hp).
  update_exits aiPlayer opponent currentTime s Hd Ha Hg;
    try (left; exact Hsc).
  set (s1 := set_lastDecisionTime currentTime (updateCooldowns s)).
  assert (Hsc1 : strikeCount s1 = strikeCount s) by exact Hsc.
  assert (Hdf1 : difficulty s1 = difficulty s) by exact Hdf.
  assert (Hp1 : params s1 = params s) by exact Hp.
  assert (Hac1 : attackCooldown s1 = attackCooldown (updateCooldowns s))
    by reflexivity.
  destruct (makeDecision_cases random aiPlayer opponent
              (getDistance aiPlayer opponent)
              (Qltb (x (position opponent)) (x (position aiPlayer))) s1 n)
    as [[_ Hr] | [(_ & _ & n' & Hr) | [(_ & Hyes & Hthird & Hr)
                                      | (_ & Hyes & Hthird & Hr)]]];
    cbv zeta in *; rewrite Hr; clear Hr; cbn [fst snd]; fields.
  - left. exact Hsc1.
  - left.
    destruct (jumpDecision_cases random (params s1)
                (getDistance aiPlayer opponent)
                (Qltb (x (position opponent)) (x (position aiPlayer))) s1 n')
      as [(dir & _ & _ & Hs' & _) | (Hs' & _)];
      cbv zeta in *; rewrite Hs'; fields; exact Hsc1.
  - destruct (difficulty s1 =? "easy") eqn:Htier; fields;
      [right | left; exact Hsc1].
    apply andb_true_iff in Hyes. destruct Hyes as [Hready _].
    apply andb_true_iff in Hready. destruct Hready as [Hrange Hcd].
    apply Qltb_true in Hrange. apply Qeq_bool_iff in Hcd.
    apply String.eqb_eq in Htier. cbn [andb] in Hthird.
    rewrite Hsc1, Hp1, Hac1, Hdf1 in *.
    unfold scriptedOutcome. rewrite Hthird.
    repeat split; assumption.
  - apply andb_true_iff in Hyes. destruct Hyes as [Hready _].
    apply andb_true_iff in Hready. destruct Hready as [Hrange Hcd].
    apply Qltb_true in Hrange. apply Qeq_bool_iff in Hcd.
    apply andb_true_iff in Hthird. destruct Hthird as [Htier Hthird].
    apply String.eqb_eq in Htier.
    rewrite Hsc1, Hp1, Hac1, Hdf1 in *.
    right. unfold scriptedOutcome. rewrite Hthird.
    repeat split; assumption.
Qed.

(** ** Deliberate jumps *)

(** X5: when [update] computes a decision without a mistake and returns a
    jump, then [jumpCooldown] (after this call's decrement) was 0 and is
    now 120, and the jump is either defensive (distance below 100, directed
    away from the opponent) or offensive (distance strictly between 250 and
    400, directed toward the opponent). *)
Theorem deliberate_jump_direction (random : nat -> Q)
    (aiPlayer opponent : Fighter) (currentTime : Q) (s : AIController)
    (n : nat) (dir : Direction) :
  dead aiPlayer || dead opponent = false ->
  isAttacking aiPlayer = false ->
  reactionTime s <= currentTime - lastDecisionTime s ->
  ~ random n < mistakes (params s) ->
  let r := update random aiPlayer opponent currentTime (s, n) in
  let isOpponentLeft :=
    Qltb (x (position opponent)) (x (position aiPlayer)) in
  fst r = Some (Jump dir) ->
  jumpCooldown (updateCooldowns s) == 0 /\
  jumpCooldown (fst (snd r)) = 120 /\
  ((getDistance aiPlayer opponent < 100 /\
    dir = (if isOpponentLeft then Right else Left)) \/
   (250 < getDistance aiPlayer opponent /\
    getDistance aiPlayer opponent < 400 /\
    dir = (if isOpponentLeft then Left else Right))).
Proof.
  intros Hd Ha Hopen Hm. cbv zeta.
  apply Qltb_false in Hopen.
  rewrite update_fresh by assumption. cbv zeta. cbn [fst snd].
  destruct (updateCooldowns_frame s) as (_ & _ & _ & _ & _ & _ & _ & Hp).
  set (s1 := set_lastDecisionTime currentTime (updateCooldowns s)).
  assert (Hp1 : params s1 = params s) by exact Hp.
  assert (Hjc1 : jumpCooldown s1 = jumpCooldown (updateCooldowns s))
    by reflexivity.
  destruct (makeDecision_cases random aiPlayer opponent
              (getDistance aiPlayer opponent)
              (Qltb (x (position opponent)) (x (position aiPlayer))) s1 n)
    as [[Hm' _] | [(_ & _ & n' & Hr) | [(_ & _ & _ & Hr)
                                       | (_ & _ & _ & Hr)]]];
    cbv zeta in *.
  - exfalso. apply Hm. apply Qltb_true. rewrite <- Hp1. exact Hm'.
  - rewrite Hr. clear Hr.
    destruct (jumpDecision_cases random (params s1)
                (getDistance aiPlayer opponent)
                (Qltb (x (position opponent)) (x (position aiPlayer))) s1 n')
      as [(dir' & Hj & Hjc & Hs' & Hdir) | (_ & [Hi | [dir' Hmv]])];
      cbv zeta in *; intro Hres; try congruence.
    assert (dir' = dir) by congruence. subst dir'.
    rewrite Hs'. fields.
    apply Qeq_bool_iff in Hjc. rewrite Hjc1 in Hjc.
    split; [exact Hjc |]. split; [reflexivity | exact Hdir].
  - rewrite Hr. cbn [fst]. discriminate.
  - rewrite Hr. cbn [fst]. discriminate.
Qed.

Lemma deliberate_jump_direction_witness :
  (dead nearSelf || dead (fighterAt 50) = false /\
   isAttacking nearSelf = false /\
   reactionTime (constructor "medium")
     <= 400 - lastDecisionTime (constructor "medium") /\
   ~ draws3 0.5 0.5 0.25 O < mistakes (params (constructor "medium")) /\
   fst (update (draws3 0.5 0.5 0.25) nearSelf (fighterAt 50) 400
          (constructor "medium", O)) = Some (Jump Left)) /\
  jumpCooldown (fst jumpedWorld) = 120.
Proof.
  assert (Hopen : reactionTime (constructor "medium")
                  <= 400 - lastDecisionTime (constructor "medium"))
    by discriminate.
  assert (Hm : ~ draws3 0.5 0.5 0.25 O
                 < mistakes (params (constructor "medium")))
    by discriminate.
  split.
  - repeat split; try reflexivity; assumption.
  - destruct (deliberate_jump_direction (draws3 0.5 0.5 0.25) nearSelf
                (fighterAt 50) 400 (constructor "medium") O Left
                eq_refl eq_refl Hopen Hm eq_refl)
      as (_ & Hj & _).
    exact Hj.
Defined.

(** ** The range of the attack cooldown *)

Lemma cooldown_table_bounds (d : string) (u : Q) :
  0 <= u -> u < 1 ->
  let p := getDifficultyParams d in
  90 <= attackCooldownMin p /\ attackCooldownMin p <= 240 /\
  90 <= attackCooldownMin p
        + u * (attackCooldownMax p - attackCooldownMin p) /\
  attackCooldownMin p + u * (attackCooldownMax p - attackCooldownMin p)
    <= 240.
Proof.
  intros H0 H1. cbv zeta. unfold getDifficultyParams.
  destruct (d =? "easy");
    [| destruct (d =? "medium"); [| destruct (d =? "hard")]];
    cbn [attackCooldownMin attackCooldownMax easyParams mediumParams
         hardParams];
    repeat split; lra.
Qed.

Lemma updateCooldowns_attack_bounds (s : AIController) :
  - (1) < attackCooldown s -> attackCooldown s <= 240 ->
  - (1) < attackCooldown (updateCooldowns s) /\
  attackCooldown (updateCooldowns s) <= 240.
Proof.
  intros Hlo Hhi. rewrite updateCooldowns_attack.
  destruct (Qltb 0 (attackCooldown s)) eqn:E.
  - apply Qltb_true in E. split; lra.
  - split; assumption.
Qed.

(** X6: in every reachable state [attackCooldown] is above -1 and at most
    240: a call takes 1 off it only while it is positive, and a decision
    arms it with a value between 90 and 240. *)
Theorem attackCooldown_bounds (s : AIController) :
  reachable s ->
  - (1) < attackCooldown s /\ attackCooldown s <= 240.
Proof.
  induction 1 as [d | random fr s n Hv Hs IH | d s Hs IH].
  - split; [reflexivity | discriminate].
  - destruct IH as [Hlo Hhi].
    destruct (updateCooldowns_attack_bounds s Hlo Hhi) as [Hlo' Hhi'].
    destruct (reachable_config s Hs) as (_ & Hp & _).
    destruct (updateCooldowns_frame s) as (_ & _ & _ & _ & _ & _ & _ & Hp').
    destruct (Hv (S (S n))) as [H0 H1].
    destruct (cooldown_table_bounds (difficulty s) _ H0 H1)
      as (B1 & B2 & B3 & B4).
    cbv zeta in B1, B2, B3, B4. rewrite <- Hp in B1, B2, B3, B4.
    unfold after, step.
    update_exits (f_self fr) (f_opponent fr) (f_now fr) s Hd Ha Hg;
      try (split; assumption).
    set (s1 := set_lastDecisionTime (f_now fr) (updateCooldowns s)).
    assert (Hp1 : params s1 = params s) by exact Hp'.
    assert (Hac1 : attackCooldown s1 = attackCooldown (updateCooldowns s))
      by reflexivity.
    destruct (makeDecision_cases random (f_self fr) (f_opponent fr)
                (getDistance (f_self fr) (f_opponent fr))
                (Qltb (x (position (f_opponent fr)))
                   (x (position (f_self fr)))) s1 n)
      as [[_ Hr] | [(_ & _ & n' & Hr) | [(_ & _ & _ & Hr)
                                        | (_ & _ & _ & Hr)]]];
      cbv zeta in *; rewrite Hr; clear Hr; cbn [fst snd]; fields.
    + rewrite Hac1. split; assumption.
    + destruct (jumpDecision_cases random (params s1)
                  (getDistance (f_self fr) (f_opponent fr))
                  (Qltb (x (position (f_opponent fr)))
                     (x (position (f_self fr)))) s1 n')
        as [(dir & _ & _ & Hs' & _) | (Hs' & _)];
        cbv zeta in *; rewrite Hs'; fields; rewrite Hac1; split; assumption.
    + rewrite Hp1. split; lra.
    + rewrite Hp1. split; lra.
  - exact IH.
Qed.

Lemma attackCooldown_bounds_witness :
  reachable (fst (laterWorld 181)) /\
  - (1) < attackCooldown (fst (laterWorld 181)).
Proof.
  assert (H : reachable (fst (laterWorld 181))).
  { unfold laterWorld.
    pose proof (reachable_update attackDraws
                  (mkFrame nearSelf nearOpponent 400) (constructor "medium")
                  O attackDraws_valid (reachable_new "medium")) as Harmed.
    fold armedWorld in Harmed.
    destruct armedWorld as [s1 n1].
    apply reachable_run; [exact attackDraws_valid | exact Harmed]. }
  split; [exact H |].
  exact (proj1 (attackCooldown_bounds _ H)).
Defined.

(** X7: once [attackCooldown] is negative no sequence of [update] calls
    changes it: it is not decremented (it is not positive) and no decision
    writes it (it is not 0), so the attack stage stays closed for good. *)
Theorem negative_attackCooldown_never_recovers (random : nat -> Q)
    (frames : list Frame) :
  forall (s : AIController) (n : nat),
    attackCooldown s < 0 ->
    attackCooldown (fst (snd (run random frames (s, n)))) = attackCooldown s.
Proof.
  induction frames as [| fr rest IH]; intros s n Hneg.
  - reflexivity.
  - rewrite run_cons. cbn [snd].
    pose proof (negative_attackCooldown_is_permanent random (f_self fr)
                  (f_opponent fr) (f_now fr) s n Hneg) as Hstep.
    unfold after, step.
    destruct (update random (f_self fr) (f_opponent fr) (f_now fr) (s, n))
      as [a [s1 n1]].
    cbn [fst snd] in *.
    rewrite IH by (rewrite Hstep; exact Hneg).
    exact Hstep.
Qed.

Lemma negative_attackCooldown_never_recovers_witness :
  attackCooldown (fst (laterWorld 181)) < 0 /\
  attackCooldown
    (fst (snd (run (draws3 0.5 0.125 0.5) (framesFrom 1000 50)
                 (fst (laterWorld 181), O))))
  = attackCooldown (fst (laterWorld 181)).
Proof.
  assert (H : attackCooldown (fst (laterWorld 181)) < 0)
    by (vm_compute; reflexivity).
  split; [exact H |].
  exact (negative_attackCooldown_never_recovers (draws3 0.5 0.125 0.5)
           (framesFrom 1000 50) (fst (laterWorld 181)) O H).
Defined.

(** ** The number of draws *)



(** ** Closing in from afar *)

Lemma jumpDecision_far (random : nat -> Q) (p : Params) (distance : Q)
    (isOpponentLeft : bool) (s : AIController) (n : nat) :
  Qltb distance 100 = false ->
  Qltb distance 400 = false ->
  Qltb (comfortDistance p + 50) distance = true ->
  jumpDecision random p distance isOpponentLeft (s, n) =
  (Some (Move (if isOpponentLeft then Left else Right)), (s, n)).
Proof.
  intros Hnear Hfar Hmove.
  assert (Hoff : Qltb 250 distance && Qltb distance 400 = false)
    by (rewrite Hfar; apply andb_false_r).
  unfold jumpDecision, movementDecision. run_monad.
  destruct (Qeq_bool (jumpCooldown s) 0); run_monad; follow; reflexivity.
Qed.

Lemma table_ranges (d : string) :
  let p := getDifficultyParams d in
  attackRange p <= 220 /\ comfortDistance p + 50 <= 370.
Proof.
  cbv zeta. unfold getDifficultyParams.
  destruct (d =? "easy");
    [| destruct (d =? "medium"); [| destruct (d =? "hard")]];
    split; discriminate.
Qed.

(** X9: on a reachable controller, a decision computed without a mistake
    while the fighters are 400 or more apart is always a move toward the
    opponent; it costs the mistake roll only and writes neither cooldown
    nor [strikeCount]. *)
Theorem approach_when_far (random : nat -> Q) (aiPlayer opponent : Fighter)
    (currentTime : Q) (s : AIController) (n : nat) :
  reachable s ->
  dead aiPlayer || dead opponent = false ->
  isAttacking aiPlayer = false ->
  reactionTime s <= currentTime - lastDecisionTime s ->
  ~ random n < mistakes (params s) ->
  400 <= getDistance aiPlayer opponent ->
  let toward :=
    if Qltb (x (position opponent)) (x (position aiPlayer))
    then Left else Right in
  update random aiPlayer opponent currentTime (s, n) =
  (Some (Move toward),
   (set_currentAction (Some (Move toward))
      (set_lastDecisionTime currentTime (updateCooldowns s)),
    S n)).
Proof.
  intros Hs Hd Ha Hopen Hm Hfar. cbv zeta.
  apply Qltb_false in Hopen.
  destruct (reachable_config s Hs) as (_ & Hp & _).
  destruct (table_ranges (difficulty s)) as [Hrange Hcomfort].
  cbv zeta in Hrange, Hcomfort. rewrite <- Hp in Hrange, Hcomfort.
  destruct (updateCooldowns_frame s) as (_ & _ & _ & _ & _ & _ & _ & Hp').
  rewrite update_fresh by assumption. cbv zeta.
  set (s1 := set_lastDecisionTime currentTime (updateCooldowns s)).
  assert (Hp1 : params s1 = params s) by exact Hp'.
  rewrite makeDecision_not_ready.
  - rewrite jumpDecision_far; [reflexivity | | |]; rewrite ?Hp1.
    + apply Qltb_false. lra.
    + apply Qltb_false. exact Hfar.
    + apply Qltb_true. lra.
  - rewrite Hp1. apply Qltb_false. apply Qnot_lt_le. exact Hm.
  - rewrite Hp1.
    replace (Qltb (getDistance aiPlayer opponent) (attackRange (params s)))
      with false; [reflexivity |].
    symmetry. apply Qltb_false. lra.
Qed.

Lemma approach_when_far_witness :
  (reachable (constructor "hard") /\
   dead nearSelf || dead (fighterAt 500) = false /\
   isAttacking nearSelf = false /\
   reactionTime (constructor "hard")
     <= 150 - lastDecisionTime (constructor "hard") /\
   ~ attackDraws O < mistakes (params (constructor "hard")) /\
   400 <= getDistance nearSelf (fighterAt 500)) /\
  fst (update attackDraws nearSelf (fighterAt 500) 150
         (constructor "hard", O)) = Some (Move Right).
Proof.
  assert (Hopen : reactionTime (constructor "hard")
                  <= 150 - lastDecisionTime (constructor "hard"))
    by discriminate.
  assert (Hm : ~ attackDraws O < mistakes (params (constructor "hard")))
    by discriminate.
  assert (Hfar : 400 <= getDistance nearSelf (fighterAt 500))
    by discriminate.
  split.
  - repeat split; try reflexivity; try assumption. apply reachable_new.
  - rewrite (approach_when_far attackDraws nearSelf (fighterAt 500) 150
               (constructor "hard") O (reachable_new "hard") eq_refl eq_refl
               Hopen Hm Hfar).
    reflexivity.
Defined.

(** ** The distance between two fighters *)

(** X10: [getDistance] is symmetric in its two fighters and never
    negative, and it is 0 between a fighter and itself, whatever their
    positions and widths. *)
Theorem getDistance_metric (fighter1 fighter2 : Fighter) :
  getDistance fighter1 fighter2 = getDistance fighter2 fighter1 /\
  0 <= getDistance fighter1 fighter2 /\
  getDistance fighter1 fighter1 == 0.
Proof.
  unfold getDistance. cbv zeta.
  split; [apply Qabs_Qminus |].
  split; [apply Qabs_nonneg |].
  rewrite Qabs_wd with (y := 0); [reflexivity | ring].
Qed.



(** ** Reconfiguration *)

(** X11: [setDifficulty] writes the difficulty, the reaction time and the
    parameters only, so cooldowns, strike count, stored action and decision
    timer survive a live reconfiguration; of two reconfigurations in a row
    the last one wins; and reconfiguring a new controller gives exactly the
    controller constructed at that tier. *)
Theorem setDifficulty_live (d1 d2 : string) (s : AIController) :
  let s' := setDifficulty d2 s in
  (attackCooldown s' = attackCooldown s /\
   jumpCooldown s' = jumpCooldown s /\
   strikeCount s' = strikeCount s /\
   currentAction s' = currentAction s /\
   lastDecisionTime s' = lastDecisionTime s) /\
  setDifficulty d2 (setDifficulty d1 s) = setDifficulty d2 s /\
  setDifficulty d2 (constructor d1) = constructor d2 /\
  updateCooldowns (setDifficulty d2 s) = setDifficulty d2 (updateCooldowns s).
Proof.
  cbv zeta. split; [repeat split; reflexivity |].
  split; [reflexivity |]. split; [reflexivity |].
  unfold updateCooldowns, setDifficulty. fields.
  destruct (Qltb 0 (attackCooldown s)); fields;
    destruct (Qltb 0 (jumpCooldown s)); reflexivity.
Qed.

(** ** Every call returns an action *)

(** X12: as long as [Math.random()] returns values in [0, 1), [update]
    returns an action object on every call, never [undefined], and the
    stored [currentAction] is either kept or replaced by the very action
    returned. *)
Theorem update_returns_action (random : nat -> Q)
    (aiPlayer opponent : Fighter) (currentTime : Q) (s : AIController)
    (n : nat) :
  validDraws random ->
  let r := update random aiPlayer opponent currentTime (s, n) in
  exists a : Action,
    fst r = Some a /\
    (currentAction (fst (snd r)) = currentAction s \/
     currentAction (fst (snd r)) = Some a).
Proof.
  intro Hv. cbv zeta.
  destruct (updateCooldowns_frame s) as (_ & _ & _ & _ & Hc & _).
  update_exits aiPlayer opponent currentTime s Hd Ha Hg;
    try (eexists; split; [reflexivity | left; exact Hc]).
  destruct (makeDecision_total random aiPlayer opponent
              (getDistance aiPlayer opponent)
              (Qltb (x (position opponent)) (x (position aiPlayer)))
              (set_lastDecisionTime currentTime (updateCooldowns s)) n Hv)
    as [a Hsome].
  exists a. rewrite Hsome. split; [reflexivity | right; reflexivity].
Qed.

Lemma update_returns_action_witness :
  validDraws attackDraws /\
  exists a : Action,
    fst (update attackDraws nearSelf nearOpponent 400
           (constructor "medium", O)) = Some a.
Proof.
  split; [exact attackDraws_valid |].
  destruct (update_returns_action attackDraws nearSelf nearOpponent 400
              (constructor "medium") O attackDraws_valid) as (a & Ha & _).
  exists a. exact Ha.
Defined.

(** ** Holding an action through the reaction window *)

(** X13: while both fighters are alive and the reaction test
    [now - lastDecisionTime < reactionTime] holds on each call, every call
    returns the stored action (the idle action when none is stored),
    whether or not the controlled fighter is attacking; no draw is made,
    and the stored action and the timer are not touched. *)
Theorem action_held_through_window (random : nat -> Q)
    (frames : list Frame) :
  forall (s : AIController) (n : nat),
    Forall (fun fr =>
              dead (f_self fr) || dead (f_opponent fr) = false /\
              withinReaction (f_now fr) (lastDecisionTime s) (reactionTime s)
              = true) frames ->
    let r := run random frames (s, n) in
    fst r =
      repeat (Some match currentAction s with Some a => a | None => Idle end)
        (length frames) /\
    snd (snd r) = n /\
    currentAction (fst (snd r)) = currentAction s /\
    lastDecisionTime (fst (snd r)) = lastDecisionTime s.
Proof.
  induction frames as [| fr rest IH]; intros s n Hall; cbv zeta.
  - repeat split; reflexivity.
  - inversion Hall as [| ? ? [Hd Hg] Hrest]; subst.
    destruct (updateCooldowns_frame s) as (_ & _ & Hr & Hl & Hc & _).
    rewrite run_cons. unfold returned, after, step.
    rewrite update_gated by assumption.
    cbn [fst snd length repeat].
    destruct (IH (updateCooldowns s) n) as (Hout & Hn & Hcur & Hlast).
    { rewrite Hl, Hr. exact Hrest. }
    cbv zeta in Hout, Hn, Hcur, Hlast.
    rewrite Hout, Hn, Hcur, Hlast, Hc, Hl.
    repeat split; reflexivity.
Qed.

Lemma action_held_through_window_witness :
  Forall (fun fr =>
            dead (f_self fr) || dead (f_opponent fr) = false /\
            withinReaction (f_now fr) (lastDecisionTime (fst armedWorld))
              (reactionTime (fst armedWorld)) = true)
    (framesFrom 401 3) /\
  fst (run attackDraws (framesFrom 401 3) (fst armedWorld, 3%nat))
  = [Some Attack; Some Attack; Some Attack].
Proof.
  assert (H : Forall (fun fr =>
                        dead (f_self fr) || dead (f_opponent fr) = false /\
                        withinReaction (f_now fr)
                          (lastDecisionTime (fst armedWorld))
                          (reactionTime (fst armedWorld)) = true)
                (framesFrom 401 3)).
  { repeat constructor. }
  split; [exact H |].
  destruct (action_held_through_window attackDraws (framesFrom 401 3)
              (fst armedWorld) 3%nat H) as (Hout & _).
  exact Hout.
Defined.

(** ** Counting the attack cooldown down *)

Lemma update_attackCooldown (random : nat -> Q) (aiPlayer opponent : Fighter)
    (currentTime : Q) (s : AIController) (n : nat) :
  Qeq_bool (attackCooldown (updateCooldowns s)) 0 = false ->
  attackCooldown
    (fst (snd (update random aiPlayer opponent currentTime (s, n))))
  = attackCooldown (updateCooldowns s).
Proof.
  intro Hne.
  update_exits aiPlayer opponent currentTime s Hd Ha Hg; try reflexivity.
  fields. rewrite makeDecision_attackCooldown; [reflexivity | exact Hne].
Qed.

Lemma update_attackCooldown_step (random : nat -> Q) (fr : Frame)
    (s : AIController) (n : nat) :
  1 < attackCooldown s ->
  attackCooldown (fst (after random fr (s, n))) = attackCooldown s - 1.
Proof.
  intro Hc.
  assert (Htick : attackCooldown (updateCooldowns s) = attackCooldown s - 1).
  { rewrite updateCooldowns_attack.
    replace (Qltb 0 (attackCooldown s)) with true; [reflexivity |].
    symmetry. apply Qltb_true. lra. }
  unfold after, step. rewrite update_attackCooldown; [exact Htick |].
  rewrite Htick.
  destruct (Qeq_bool (attackCooldown s - 1) 0) eqn:E; [| reflexivity].
  apply Qeq_bool_iff in E. lra.
Qed.

(** X14: a cooldown cannot be cut short.  While fewer calls have been made
    than the value of [attackCooldown], whether integral or not, each call
    takes exactly 1 off it whatever the fighters, the clock and the draws
    are, so that it is still positive and no decision can have re-armed
    it. *)
Theorem attackCooldown_counts_down (random : nat -> Q) (frames : list Frame) :
  forall (s : AIController) (n : nat),
    inject_Z (Z.of_nat (length frames)) < attackCooldown s ->
    let s' := fst (snd (run random frames (s, n))) in
    attackCooldown s'
      == attackCooldown s - inject_Z (Z.of_nat (length frames)) /\
    0 < attackCooldown s'.
Proof.
  induction frames as [| fr rest IH]; intros s n Hlen; cbv zeta.
  - cbn [run ret fst snd length Z.of_nat] in *. split; [ring | exact Hlen].
  - cbn [length] in Hlen. rewrite Nat2Z.inj_succ in Hlen.
    unfold Z.succ in Hlen. rewrite inject_Z_plus in Hlen.
    change (inject_Z 1) with 1 in Hlen.
    assert (Hpos : 0 <= inject_Z (Z.of_nat (length rest))).
    { change 0 with (inject_Z 0). rewrite <- Zle_Qle. lia. }
    rewrite run_cons. cbn [snd].
    pose proof (update_attackCooldown_step random fr s n ltac:(lra))
      as Hstep.
    destruct (after random fr (s, n)) as [s1 n1]. cbn [fst] in Hstep.
    destruct (IH s1 n1) as [Hval Hgt].
    { rewrite Hstep. lra. }
    cbv zeta in Hval, Hgt.
    split; [| exact Hgt].
    rewrite Hval, Hstep. cbn [length]. rewrite Nat2Z.inj_succ.
    unfold Z.succ. rewrite inject_Z_plus. change (inject_Z 1) with 1. ring.
Qed.

Lemma attackCooldown_counts_down_witness :
  inject_Z (Z.of_nat (length (framesFrom 401 180)))
    < attackCooldown (fst armedWorld) /\
  attackCooldown
    (fst (snd (run (draws3 0.5 0.125 0.5) (framesFrom 401 180)
                 (fst armedWorld, O))))
  == 0.46875.
Proof.
  assert (H : inject_Z (Z.of_nat (length (framesFrom 401 180)))
              < attackCooldown (fst armedWorld))
    by (vm_compute; reflexivity).
  split; [exact H |].
  destruct (attackCooldown_counts_down (draws3 0.5 0.125 0.5)
              (framesFrom 401 180) (fst armedWorld) O H) as [Hval _].
  rewrite Hval. vm_compute. reflexivity.
Defined.

(** ** The easy tier keeps a whole cooldown *)

Lemma updateCooldowns_attack_integer (s : AIController) (k : Z) :
  attackCooldown s == inject_Z k -> (0 <= k)%Z ->
  attackCooldown (updateCooldowns s) == inject_Z (Z.max 0 (k - 1)).
Proof.
  intros Hc Hk. rewrite updateCooldowns_attack.
  destruct (Qltb 0 (attackCooldown s)) eqn:E.
  - apply Qltb_true in E. rewrite Hc in E. change 0 with (inject_Z 0) in E.
    rewrite <- Zlt_Qlt in E.
    rewrite Z.max_r by lia. rewrite Hc.
    unfold Z.sub. rewrite inject_Z_plus, inject_Z_opp.
    change (inject_Z 1) with 1. ring.
  - apply Qltb_false in E. rewrite Hc in E. change 0 with (inject_Z 0) in E.
    rewrite <- Zle_Qle in E.
    rewrite Hc. replace k with 0%Z by lia. reflexivity.
Qed.

Lemma update_easy_cooldown (random : nat -> Q) (fr : Frame)
    (s : AIController) (n : nat) :
  difficulty s = "easy" -> params s = getDifficultyParams "easy" ->
  (exists k : Z, (0 <= k <= 120)%Z /\ attackCooldown s == inject_Z k) ->
  exists k : Z,
    (0 <= k <= 120)%Z /\
    attackCooldown (fst (after random fr (s, n))) == inject_Z k.
Proof.
  intros Htier Hparams (k & Hk & Hc).
  pose proof (updateCooldowns_attack_integer s k Hc (proj1 Hk)) as Htick.
  destruct (updateCooldowns_frame s) as (_ & _ & _ & _ & _ & _ & _ & Hp).
  unfold after, step.
  update_exits (f_self fr) (f_opponent fr) (f_now fr) s Hd Ha Hg;
    try (exists (Z.max 0 (k - 1)); split; [lia | exact Htick]).
  set (s1 := set_lastDecisionTime (f_now fr) (updateCooldowns s)).
  assert (Hp1 : params s1 = getDifficultyParams "easy")
    by (rewrite <- Hparams; exact Hp).
  assert (Hac1 : attackCooldown s1 = attackCooldown (updateCooldowns s))
    by reflexivity.
  destruct (makeDecision_cases random (f_self fr) (f_opponent fr)
              (getDistance (f_self fr) (f_opponent fr))
              (Qltb (x (position (f_opponent fr)))
                 (x (position (f_self fr)))) s1 n)
    as [[_ Hr] | [(_ & _ & n' & Hr) | [(_ & _ & _ & Hr)
                                      | (_ & _ & _ & Hr)]]];
    cbv zeta in *; rewrite Hr; clear Hr; cbn [fst snd]; fields.
  - exists (Z.max 0 (k - 1)). split; [lia |]. rewrite Hac1. exact Htick.
  - exists (Z.max 0 (k - 1)). split; [lia |].
    destruct (jumpDecision_cases random (params s1)
                (getDistance (f_self fr) (f_opponent fr))
                (Qltb (x (position (f_opponent fr)))
                   (x (position (f_self fr)))) s1 n')
      as [(dir & _ & _ & Hs' & _) | (Hs' & _)];
      cbv zeta in *; rewrite Hs'; fields; rewrite Hac1; exact Htick.
  - exists 120%Z. split; [lia |]. rewrite Hp1.
    cbn [getDifficultyParams String.eqb Ascii.eqb Bool.eqb easyParams
         attackCooldownMin attackCooldownMax].
    change (inject_Z 120) with 120. ring.
  - exists 120%Z. split; [lia |]. rewrite Hp1. reflexivity.
Qed.

(** X15: a controller that stays at the easy tier never gets a fractional
    or negative attack cooldown: its cooldown range is empty, so every
    strike and every scripted miss arms exactly 120, and after any sequence
    of [update] calls [attackCooldown] is an integer between 0 and 120. *)
Theorem easy_attackCooldown_integer (random : nat -> Q)
    (frames : list Frame) :
  forall (s : AIController) (n : nat),
    difficulty s = "easy" -> params s = getDifficultyParams "easy" ->
    (exists k : Z, (0 <= k <= 120)%Z /\ attackCooldown s == inject_Z k) ->
    exists k : Z,
      (0 <= k <= 120)%Z /\
      attackCooldown (fst (snd (run random frames (s, n)))) == inject_Z k.
Proof.
  induction frames as [| fr rest IH]; intros s n Htier Hparams Hint.
  - exact Hint.
  - rewrite run_cons. cbn [snd].
    pose proof (update_easy_cooldown random fr s n Htier Hparams Hint)
      as Hstep.
    destruct (update_frame random (f_self fr) (f_opponent fr) (f_now fr) s n)
      as (Hdf & _ & _ & _ & Hp).
    cbv zeta in Hdf, Hp. unfold after, step in *.
    destruct (update random (f_self fr) (f_opponent fr) (f_now fr) (s, n))
      as [a [s1 n1]].
    cbn [fst snd] in *.
    apply IH.
    + rewrite Hdf. exact Htier.
    + rewrite Hp. exact Hparams.
    + exact Hstep.
Qed.

Lemma easy_attackCooldown_integer_witness :
  (difficulty (constructor "easy") = "easy" /\
   params (constructor "easy") = getDifficultyParams "easy" /\
   exists k : Z,
     (0 <= k <= 120)%Z /\ attackCooldown (constructor "easy") == inject_Z k) /\
  exists k : Z,
    (0 <= k <= 120)%Z /\
    attackCooldown
      (fst (snd (run attackDraws (framesFrom 1200 200)
                   (constructor "easy", O)))) == inject_Z k.
Proof.
  assert (H : exists k : Z,
                (0 <= k <= 120)%Z /\
                attackCooldown (constructor "easy") == inject_Z k).
  { exists 0%Z. split; [split; discriminate | reflexivity]. }
  split; [split; [reflexivity | split; [reflexivity | exact H]] |].
  exact (easy_attackCooldown_integer attackDraws (framesFrom 1200 200)
           (constructor "easy") O eq_refl eq_refl H).
Defined.

(** ** The attacking lockout *)

(** X16: while the controlled fighter is attacking (and nobody is dead) no
    decision is computed, however far the clock has moved past the reaction
    time: every call returns the stored action (the idle action when none
    is stored), no draw is made, and the stored action, the decision timer
    and the strike count are not touched. *)
Theorem attacking_lockout (random : nat -> Q) (frames : list Frame) :
  forall (s : AIController) (n : nat),
    Forall (fun fr =>
              dead (f_self fr) || dead (f_opponent fr) = false /\
              isAttacking (f_self fr) = true) frames ->
    let r := run random frames (s, n) in
    fst r =
      repeat (Some match currentAction s with Some a => a | None => Idle end)
        (length frames) /\
    snd (snd r) = n /\
    currentAction (fst (snd r)) = currentAction s /\
    lastDecisionTime (fst (snd r)) = lastDecisionTime s /\
    strikeCount (fst (snd r)) = strikeCount s.
Proof.
  induction frames as [| fr rest IH]; intros s n Hall; cbv zeta.
  - repeat split; reflexivity.
  - inversion Hall as [| ? ? [Hd Ha] Hrest]; subst.
    destruct (updateCooldowns_frame s)
      as (_ & _ & _ & Hl & Hc & _ & Hsc & _).
    rewrite run_cons. unfold returned, after, step.
    rewrite update_attacking by assumption.
    cbn [fst snd length repeat].
    destruct (IH (updateCooldowns s) n Hrest)
      as (Hout & Hn & Hcur & Hlast & Hstrike).
    cbv zeta in Hout, Hn, Hcur, Hlast, Hstrike.
    rewrite Hout, Hn, Hcur, Hlast, Hstrike, Hc, Hl, Hsc.
    repeat split; reflexivity.
Qed.

Lemma attacking_lockout_witness :
  Forall (fun fr =>
            dead (f_self fr) || dead (f_opponent fr) = false /\
            isAttacking (f_self fr) = true)
    [mkFrame (mkFighter (mkPosition 0 0) 40 false true) nearOpponent 5000] /\
  fst (run attackDraws
         [mkFrame (mkFighter (mkPosition 0 0) 40 false true) nearOpponent
            5000]
         (constructor "hard", O))
  = [Some Idle].
Proof.
  assert (H : Forall (fun fr =>
                        dead (f_self fr) || dead (f_opponent fr) = false /\
                        isAttacking (f_self fr) = true)
                [mkFrame (mkFighter (mkPosition 0 0) 40 false true)
                   nearOpponent 5000]).
  { repeat constructor. }
  split; [exact H |].
  destruct (attacking_lockout attackDraws
              [mkFrame (mkFighter (mkPosition 0 0) 40 false true)
                 nearOpponent 5000]
              (constructor "hard") O H) as (Hout & _).
  exact Hout.
Defined.
